(** * The SQL ETL command-line tool (cli_sql_etl.py), embedded in Rocq

    The tool is a group of [click] commands ([extract], [transform], [load],
    [report], [validate]) that pass a table from one command to the next
    through CSV files on disk.  The embedding follows the source:

    - a [DataFrame] with its row labels, and the pandas operations the
      commands call ([drop], [dropna], column selection, boolean masks,
      [isnull], [duplicated]);
    - the process state the commands act on (files, open database
      connections, the lines printed by [click.echo]) and a small
      state-and-exception monad [Cmd] over it;
    - the commands themselves, statement by statement ([report], which only
      prints [df.describe], is left out);
    - a reference reader and writer for plain CSV text, with which the
      commands can be run on concrete files. *)

From Stdlib Require Import ZArith String Ascii List Bool Lia.
From stdpp Require Import base option list strings pretty gmap.

Local Open Scope string_scope.

(** ** Tabular data *)

(** A scalar held in a cell: an [int64] value, a whole-number [float64]
    value (what an integer column holds once it also has missing values),
    or text.  A missing value (pandas' [NaN]) is [None]. *)
Inductive scalar :=
| VInt (z : Z)
| VFloat (whole : Z)
| VStr (s : string).

Definition cell := option scalar.

Definition row := list cell.

(** A data frame: the column labels, and the rows with their index labels.
    Cell [k] of a row belongs to column [k]. *)
Record DataFrame := mkDataFrame {
  columns : list string;
  rows : list (nat * row)
}.

Definition scalar_eqb (a b : scalar) : bool :=
  match a, b with
  | VInt x, VInt y => (x =? y)%Z
  | VFloat x, VFloat y => (x =? y)%Z
  | VStr s, VStr t => String.eqb s t
  | _, _ => false
  end.

(** [df.index]: the row labels, in order. *)
Definition labels (df : DataFrame) : list nat := fst <$> rows df.

Definition well_formed (df : DataFrame) : Prop :=
  NoDup (columns df) ∧
  Forall (fun r => length (snd r) = length (columns df)) (rows df).

Module Pandas.

(** [len(df)] *)
Definition len (df : DataFrame) : nat := length (rows df).

Definition isnull (c : cell) : bool :=
  match c with None => true | Some _ => false end.

Definition notnull (c : cell) : bool := negb (isnull c).

(** Keep the entries of [r] whose position is marked [true] in [mask]. *)
Fixpoint select {A} (mask : list bool) (r : list A) : list A :=
  match mask, r with
  | b :: mask', x :: r' => if b then x :: select mask' r' else select mask' r'
  | _, _ => []
  end.

(** The positions that survive [df.drop(columns=names, errors='ignore')]:
    a column stays when its label is not among [names]. *)
Definition keep_mask (names : list string) (cols : list string) : list bool :=
  (fun c => negb (bool_decide (c ∈ names))) <$> cols.

(** [df.drop(columns=names, errors='ignore')]: labels that name no column
    are skipped. *)
Definition drop (names : list string) (df : DataFrame) : DataFrame :=
  let mask := keep_mask names (columns df) in
  {| columns := select mask (columns df);
     rows := (fun r => (fst r, select mask (snd r))) <$> rows df |}.

(** [df.dropna()]: a row stays when none of its cells is missing. *)
Definition dropna (df : DataFrame) : DataFrame :=
  {| columns := columns df;
     rows := List.filter (fun r => forallb notnull (snd r)) (rows df) |}.

(** Position of a column label. *)
Fixpoint get_loc (name : string) (cols : list string) : option nat :=
  match cols with
  | [] => None
  | c :: cols' =>
      if String.eqb c name then Some 0
      else S <$> get_loc name cols'
  end.

(** The cell of row [r] at position [k]; missing past the end. *)
Definition at_loc (k : nat) (r : row) : cell := mjoin (r !! k).

(** [df[name]]: the column as a series of cells, or [None] where pandas
    raises [KeyError]. *)
Definition getitem (name : string) (df : DataFrame) : option (list cell) :=
  k ← get_loc name (columns df);
  Some ((fun r => at_loc k (snd r)) <$> rows df).

(** [series == value] against a Python [str]: a cell matches when it holds
    exactly that text; numbers and missing values never match. *)
Definition eq_str (value : string) (c : cell) : bool :=
  match c with
  | Some (VStr s) => String.eqb s value
  | _ => false
  end.

(** [df[mask]] with a boolean series: the rows marked [true]. *)
Definition getitem_mask (mask : list bool) (df : DataFrame) : DataFrame :=
  {| columns := columns df; rows := select mask (rows df) |}.

Definition cell_eqb (a b : cell) : bool :=
  match a, b with
  | None, None => true
  | Some x, Some y => scalar_eqb x y
  | _, _ => false
  end.

Fixpoint row_eqb (a b : row) : bool :=
  match a, b with
  | [], [] => true
  | x :: a', y :: b' => cell_eqb x y && row_eqb a' b'
  | _, _ => false
  end.

(** [df.isnull().values.any()] *)
Definition any_null (df : DataFrame) : bool :=
  existsb (fun r => existsb isnull (snd r)) (rows df).

(** [df.empty]: an axis of length zero. *)
Definition empty (df : DataFrame) : bool :=
  match columns df, rows df with
  | [], _ | _, [] => true
  | _, _ => false
  end.

(** [df.duplicated()], keep='first': a row is marked when an earlier row
    has the same values in every column (missing values compare equal);
    the series is empty for an empty frame. *)
Fixpoint duplicated_from (seen : list row) (rs : list (nat * row)) : list bool :=
  match rs with
  | [] => []
  | r :: rs' =>
      existsb (row_eqb (snd r)) seen :: duplicated_from (snd r :: seen) rs'
  end.

Definition duplicated (df : DataFrame) : list bool :=
  if empty df then [] else duplicated_from [] (rows df).

(** [series.any()] *)
Definition any (s : list bool) : bool := existsb id s.

End Pandas.

(** ** The process state and the command monad *)

(** What a command can observe and change: the files of the working
    directory (path to content), the paths that cannot be opened for
    writing, the number of database connections currently open, and the
    lines written by [click.echo], oldest first. *)
Record State := mkState {
  files : gmap string string;
  readonly : gset string;
  connections : nat;
  stdout : list string
}.

(** The exceptions the commands can raise; none of them is caught, so each
    ends the command. *)
Inductive exn :=
| FileNotFoundError (path : string)
| PermissionError (path : string)
| ParserError
| KeyError (key : string)
| OdbcError
| DatabaseError (query : string).

Inductive outcome (A : Type) :=
| Returned (a : A)
| Raised (e : exn).
Arguments Returned {A} a.
Arguments Raised {A} e.

(** A command step: it runs from a state and either returns a value or
    raises, leaving the state as it was at that point. *)
Definition Cmd (A : Type) : Type := State -> outcome A * State.

Definition ret {A} (a : A) : Cmd A := fun s => (Returned a, s).

Definition raise {A} (e : exn) : Cmd A := fun s => (Raised e, s).

Definition bind {A B} (m : Cmd A) (k : A -> Cmd B) : Cmd B :=
  fun s =>
    match m s with
    | (Returned a, s') => k a s'
    | (Raised e, s') => (Raised e, s')
    end.

Declare Scope cmd_scope.
Delimit Scope cmd_scope with cmd.
Notation "'let!' x ':=' m 'in' k" := (bind m (fun x => k))
  (at level 10, x name, m at level 100, k at level 200) : cmd_scope.
Notation "m '>>' k" := (bind m (fun _ => k))
  (at level 100, right associativity) : cmd_scope.

Local Open Scope cmd_scope.

(** [click.echo(line)] *)
Definition echo (line : string) : Cmd unit :=
  fun s => (Returned tt,
            {| files := files s; readonly := readonly s;
               connections := connections s; stdout := (stdout s ++ [line])%list |}).

(** [for x in xs: body(x)] *)
Fixpoint for_each {A} (xs : list A) (body : A -> Cmd unit) : Cmd unit :=
  match xs with
  | [] => ret tt
  | x :: xs' => body x >> for_each xs' body
  end.

(** Python truthiness of a tuple or list: non-empty. *)
Definition truthy {A} (xs : list A) : bool :=
  match xs with [] => false | _ :: _ => true end.

(** Python truthiness of an optional string: [None] and the empty string
    are falsy. *)
Definition truthy_str (o : option string) : bool :=
  match o with
  | Some (String _ _) => true
  | _ => false
  end.

(** ** The connection string *)

(** [str(os.getenv(name))] inside an f-string: an unset variable prints as
    [None]. *)
Definition getenv_text (env : gmap string string) (name : string) : string :=
  default "None" (env !! name).

Definition conn_str (env : gmap string string) : string :=
  "DRIVER={ODBC Driver 17 for SQL Server};" +:+
  "SERVER=" +:+ getenv_text env "SQL_SERVER" +:+ ";" +:+
  "DATABASE=" +:+ getenv_text env "SQL_DATABASE" +:+ ";" +:+
  "UID=" +:+ getenv_text env "SQL_USER" +:+ ";" +:+
  "PWD=" +:+ getenv_text env "SQL_PASSWORD".

(** ** The commands *)

Module Cli.
Section Commands.

(** The libraries the commands call are taken as given:
    - [parse_csv text] is the frame [pd.read_csv] builds from a file's
      content, [None] where it raises (empty or malformed content);
    - [format_csv df] is the text [df.to_csv(path, index=False)] writes;
    - [odbc_accepts s] tells whether [pyodbc.connect(s)] succeeds;
    - [sql_result query] is the result set of [pd.read_sql(query, conn)],
      [None] where the server rejects the query. *)
Variable parse_csv : string -> option DataFrame.
Variable format_csv : DataFrame -> string.
Variable odbc_accepts : string -> bool.
Variable sql_result : string -> option DataFrame.

(** The process environment, read once by [load_dotenv] and [os.getenv]. *)
Variable env : gmap string string.

(** [pd.read_csv(path)] *)
Definition read_csv (path : string) : Cmd DataFrame :=
  fun s =>
    match files s !! path with
    | None => (Raised (FileNotFoundError path), s)
    | Some text =>
        match parse_csv text with
        | None => (Raised ParserError, s)
        | Some df => (Returned df, s)
        end
    end.

(** [df.to_csv(path, index=False)]: the file is replaced as a whole. *)
Definition to_csv (df : DataFrame) (path : string) : Cmd unit :=
  fun s =>
    if bool_decide (path ∈ readonly s) then (Raised (PermissionError path), s)
    else (Returned tt,
          {| files := <[path := format_csv df]> (files s);
             readonly := readonly s;
             connections := connections s;
             stdout := stdout s |}).

(** [pyodbc.connect(conn_str)] *)
Definition connect (s_conn : string) : Cmd unit :=
  fun s =>
    if odbc_accepts s_conn then
      (Returned tt,
       {| files := files s; readonly := readonly s;
          connections := S (connections s); stdout := stdout s |})
    else (Raised OdbcError, s).

(** [pd.read_sql(query, conn)] *)
Definition read_sql (query : string) : Cmd DataFrame :=
  fun s =>
    match sql_result query with
    | Some df => (Returned df, s)
    | None => (Raised (DatabaseError query), s)
    end.

(** [conn.close()] *)
Definition close : Cmd unit :=
  fun s =>
    (Returned tt,
     {| files := files s; readonly := readonly s;
        connections := Nat.pred (connections s); stdout := stdout s |}).

(** [df['department']], raising [KeyError] for a missing label. *)
Definition column (name : string) (df : DataFrame) : Cmd (list cell) :=
  match Pandas.getitem name df with
  | Some series => ret series
  | None => raise (KeyError name)
  end.

(** [extract --table TABLE] *)
Definition extract (table : string) : Cmd unit :=
  echo ("🔍 Extracting data from SQL table: " +:+ table) >>
  connect (conn_str env) >>
  let query := "SELECT * FROM " +:+ table in
  let! df := read_sql query in
  close >>
  to_csv df "extracted_sql.csv" >>
  echo ("✅ Extracted " +:+ pretty (Pandas.len df) +:+ " rows") >>
  echo "📁 Saved to extracted_sql.csv".

(** [transform --input INPUT [--drop-null] [--drop-cols NAME]...
    [--filter-dept VALUE]].  [drop_cols] is the tuple click collects (empty
    when the option is not given); [filter_dept] is [None] when the option
    is not given.  An empty tuple, [None] and the empty string are all
    falsy in an [if]. *)
Definition transform (input : string) (drop_null : bool)
    (drop_cols : list string) (filter_dept : option string) : Cmd unit :=
  echo ("🔧 Transforming " +:+ input) >>
  let! df := read_csv input in
  let! df :=
    if truthy drop_cols then
      let df := Pandas.drop drop_cols df in
      echo ("🧹 Dropped columns: " +:+ String.concat ", " drop_cols) >>
      ret df
    else ret df in
  let! df :=
    if drop_null then
      let df := Pandas.dropna df in
      echo "🧹 Dropped nulls" >>
      ret df
    else ret df in
  let! df :=
    if truthy_str filter_dept then
      let dept := default "" filter_dept in
      let! series := column "department" df in
      let df := Pandas.getitem_mask (Pandas.eq_str dept <$> series) df in
      echo ("🔎 Filtered by department: " +:+ dept) >>
      ret df
    else ret df in
  to_csv df "transformed_sql.csv" >>
  echo "📁 Saved to transformed_sql.csv".

(** [load --target TARGET] *)
Definition load (target : string) : Cmd unit :=
  echo ("📦 Loading data to " +:+ target) >>
  let! df := read_csv "transformed_sql.csv" in
  to_csv df target >>
  echo "✅ Load complete".

(** [validate --input INPUT] *)
Definition validate (input : string) : Cmd unit :=
  echo ("🔍 Validating " +:+ input) >>
  let! df := read_csv input in
  let issues : list string := [] in
  let issues :=
    if Pandas.any_null df
    then (issues ++ ["❗ Null values found"])%list else issues in
  let issues :=
    if Pandas.any (Pandas.duplicated df)
    then (issues ++ ["❗ Duplicate rows found"])%list else issues in
  if truthy issues then for_each issues echo
  else echo "✅ Data passed validation".

End Commands.
End Cli.

(** ** The report command *)

Module Reporter.
Section Report.

Variable parse_csv : string -> option DataFrame.

(** [str(df.describe(include='all'))]: the table of summary statistics as
    pandas prints it.  Its entries are floating-point statistics; the text is
    taken as given. *)
Variable describe : DataFrame -> string.

(** [report --input INPUT] *)
Definition report (input : string) : Cmd unit :=
  echo ("📊 Generating report for " +:+ input) >>
  let! df := Cli.read_csv parse_csv input in
  echo (describe df).

End Report.
End Reporter.

(** ** A reference reader and writer for plain CSV text

    [PlainCsv.parse] and [PlainCsv.format] follow [pd.read_csv] and
    [DataFrame.to_csv(index=False)] with their default options on plain
    staged files: lines ended by a line feed, fields separated by commas, no
    quoted field in the input, distinct non-empty header names, no row longer
    than the header, and fields that are whole numbers within [int64]
    (in a column with missing values: within the exactly representable
    range of [float64]), text, or one of pandas' missing-value markers.
    Decimal fractions, exponents, booleans and dates are read as text here.
    The results about the commands do not depend on this module: they are
    stated for any reader and writer. *)
Module PlainCsv.

Definition comma : ascii := ","%char.
Definition line_feed : ascii := "010"%char.
Definition carriage_return : ascii := "013"%char.
Definition quote : ascii := "034"%char.

(** Cut [s] at every occurrence of [sep]. *)
Fixpoint split_on (sep : ascii) (s : string) : list string :=
  match s with
  | EmptyString => [EmptyString]
  | String c s' =>
      if Ascii.eqb c sep then EmptyString :: split_on sep s'
      else match split_on sep s' with
           | [] => [String c EmptyString]
           | f :: fs => String c f :: fs
           end
  end.

Definition is_blank (s : string) : bool :=
  match s with EmptyString => true | _ => false end.

(** The lines of a file; empty lines are skipped. *)
Definition lines (text : string) : list string :=
  List.filter (fun l => negb (is_blank l)) (split_on line_feed text).

(** The markers [read_csv] reads as a missing value. *)
Definition na_values : list string :=
  [ ""; "#N/A"; "#N/A N/A"; "#NA"; "-1.#IND"; "-1.#QNAN"; "-NaN"; "-nan";
    "1.#IND"; "1.#QNAN"; "<NA>"; "N/A"; "NA"; "NULL"; "NaN"; "None";
    "n/a"; "nan"; "null" ].

Definition is_na (field : string) : bool :=
  existsb (String.eqb field) na_values.

Definition digit_value (c : ascii) : option Z :=
  let n := Z.of_nat (nat_of_ascii c) in
  if ((48 <=? n) && (n <=? 57))%Z then Some (n - 48)%Z else None.

(** Value of a non-empty run of decimal digits. *)
Fixpoint digits_from (acc : Z) (s : string) : option Z :=
  match s with
  | EmptyString => Some acc
  | String c s' =>
      match digit_value c with
      | Some d => digits_from (10 * acc + d)%Z s'
      | None => None
      end
  end.

Definition unsigned_literal (s : string) : option Z :=
  match s with
  | EmptyString => None
  | _ => digits_from 0%Z s
  end.

(** An optionally signed run of digits. *)
Definition signed_literal (s : string) : option Z :=
  match s with
  | String "-"%char s' => Z.opp <$> unsigned_literal s'
  | String "+"%char s' => unsigned_literal s'
  | _ => unsigned_literal s
  end.

Definition in_int64 (z : Z) : bool :=
  ((- 2 ^ 63 <=? z) && (z <? 2 ^ 63))%Z.

Definition in_float_exact (z : Z) : bool :=
  ((- 2 ^ 53 <=? z) && (z <=? 2 ^ 53))%Z.

Definition all_zeros (s : string) : bool :=
  forallb (Ascii.eqb "0"%char) (list_ascii_of_string s).

(** What a field can be read as. *)
Inductive literal :=
| LMissing
| LInt (z : Z)
| LWhole (z : Z)
| LText.

Definition classify (field : string) : literal :=
  if is_na field then LMissing
  else match signed_literal field with
       | Some z => if in_int64 z then LInt z else LText
       | None =>
           match split_on "."%char field with
           | [int_part; frac_part] =>
               match signed_literal int_part with
               | Some z =>
                   if all_zeros frac_part && in_float_exact z
                   then LWhole z else LText
               | None => LText
               end
           | _ => LText
           end
       end.

(** The type [read_csv] infers for a column. *)
Inductive dtype := int64 | float64 | object.

Definition is_int (l : literal) : bool :=
  match l with LInt _ => true | _ => false end.

Definition fits_float (l : literal) : bool :=
  match l with
  | LInt z => in_float_exact z
  | LText => false
  | _ => true
  end.

Definition infer (fields : list string) : dtype :=
  let ls := classify <$> fields in
  if forallb is_int ls then int64
  else if forallb fits_float ls then float64
  else object.

Definition convert (t : dtype) (field : string) : cell :=
  match t, classify field with
  | _, LMissing => None
  | int64, LInt z => Some (VInt z)
  | float64, LInt z | float64, LWhole z => Some (VFloat z)
  | _, _ => Some (VStr field)
  end.

(** Field [k] of a record; a short record is completed with missing
    values. *)
Definition field_at (k : nat) (record : list string) : string :=
  default "" (record !! k).

Definition parse (text : string) : option DataFrame :=
  match lines text with
  | [] => None
  | header :: body =>
      let names := split_on comma header in
      let width := length names in
      let records : list (list string) := split_on comma <$> body in
      if forallb (fun r => (length r <=? width)%nat) records then
        let positions := seq 0 width in
        let dtypes :=
          (fun k => infer ((field_at k) <$> records)) <$> positions in
        let build (record : list string) : row :=
          (fun kt => convert (snd kt) (field_at (fst kt) record))
            <$> zip positions dtypes in
        Some {| columns := names;
                rows := zip (seq 0 (length records)) (build <$> records) |}
      else None
  end.

Definition needs_quoting (field : string) : bool :=
  existsb (fun c => Ascii.eqb c comma || Ascii.eqb c quote
                    || Ascii.eqb c line_feed || Ascii.eqb c carriage_return)
          (list_ascii_of_string field).

Fixpoint double_quotes (s : string) : string :=
  match s with
  | EmptyString => EmptyString
  | String c s' =>
      if Ascii.eqb c quote then String quote (String quote (double_quotes s'))
      else String c (double_quotes s')
  end.

Definition quoted (field : string) : string :=
  String quote (double_quotes field +:+ String quote EmptyString).

Definition write_field (field : string) : string :=
  if needs_quoting field then quoted field else field.

(** One record of the output; a record made of a single empty field is
    written as a pair of quotes so that the line is not empty. *)
Definition write_record (fields : list string) : string :=
  match fields with
  | [EmptyString] => quoted EmptyString
  | _ => String.concat "," (write_field <$> fields)
  end +:+ String line_feed EmptyString.

Definition cell_text (c : cell) : string :=
  match c with
  | None => ""
  | Some (VInt z) => pretty z
  | Some (VFloat z) => pretty z +:+ ".0"
  | Some (VStr s) => s
  end.

Definition format (df : DataFrame) : string :=
  String.concat ""
    (write_record (columns df)
     :: ((fun r => write_record (cell_text <$> snd r)) <$> rows df)).

End PlainCsv.

(** ** The Transformer as the specification describes it

    Section 4.3 of the specification gives the operation as three optional
    steps in a fixed order: drop columns, then drop the rows with a missing
    value, then keep the rows of one department.  [Transformer.run] composes
    the steps in that order; the [transform] command is compared with it
    below. *)
Module Transformer.

(** Step 2: only when some column name was given. *)
Definition drop_columns (drop_cols : list string) (df : DataFrame) : DataFrame :=
  match drop_cols with
  | [] => df
  | _ => Pandas.drop drop_cols df
  end.

(** Step 3: only when the flag is set. *)
Definition drop_null_rows (drop_null : bool) (df : DataFrame) : DataFrame :=
  if drop_null then Pandas.dropna df else df.

(** The value the department filter compares with, when the filter is
    applied at all: the option given with a non-empty value. *)
Definition active_filter (filter_dept : option string) : option string :=
  match filter_dept with
  | None | Some "" => None
  | Some dept => Some dept
  end.

(** Step 4: [None] where the column is missing. *)
Definition filter_department (filter_dept : option string) (df : DataFrame)
    : option DataFrame :=
  match active_filter filter_dept with
  | None => Some df
  | Some dept =>
      series ← Pandas.getitem "department" df;
      Some (Pandas.getitem_mask (Pandas.eq_str dept <$> series) df)
  end.

Definition run (drop_null : bool) (drop_cols : list string)
    (filter_dept : option string) (df : DataFrame) : option DataFrame :=
  filter_department filter_dept
    (drop_null_rows drop_null (drop_columns drop_cols df)).

End Transformer.

(** ** Vocabulary for the statements *)

(** The state after [lines] are printed. *)
Definition printed (lines : list string) (s : State) : State :=
  {| files := files s; readonly := readonly s;
     connections := connections s; stdout := (stdout s ++ lines)%list |}.

(** The state after [path] is replaced by [text]. *)
Definition written (path text : string) (s : State) : State :=
  {| files := <[path := text]> (files s); readonly := readonly s;
     connections := connections s; stdout := stdout s |}.

(** The lines [transform] prints for the steps it applies. *)
Definition dropped_columns_msg (drop_cols : list string) : string :=
  "🧹 Dropped columns: " +:+ String.concat ", " drop_cols.

Definition filtered_msg (dept : string) : string :=
  "🔎 Filtered by department: " +:+ dept.

(** [line] begins with [start]. *)
Fixpoint starts_with (start line : string) : bool :=
  match start, line with
  | EmptyString, _ => true
  | String a start', String b line' => Ascii.eqb a b && starts_with start' line'
  | String _ _, EmptyString => false
  end.

Definition is_dropped_columns_msg (line : string) : bool :=
  starts_with "🧹 Dropped columns: " line.

Definition is_filtered_msg (line : string) : bool :=
  starts_with "🔎 Filtered by department: " line.

Definition step_lines (drop_null : bool) (drop_cols : list string) : list string :=
  ((if truthy drop_cols then [dropped_columns_msg drop_cols] else []) ++
   (if drop_null then ["🧹 Dropped nulls"] else []))%list.

Definition filter_lines (filter_dept : option string) : list string :=
  match Transformer.active_filter filter_dept with
  | Some dept => [filtered_msg dept]
  | None => []
  end.

(** A row has a missing value. *)
Definition has_null (r : row) : bool := existsb Pandas.isnull r.

(** The lines printed between two states of one run. *)
Definition new_lines (s s' : State) : list string :=
  List.skipn (length (stdout s)) (stdout s').

(** The cell a row holds under a column label, for a frame with columns
    [cols]. *)
Definition lookup_cell (cols : list string) (r : row) (name : string)
    : option cell :=
  k ← Pandas.get_loc name cols; r !! k.

(** What the column drop of [transform] makes of a row: untouched when no
    name was given, otherwise cut down to the columns that stay. *)
Definition restrict_row (drop_cols cols : list string) (r : nat * row)
    : nat * row :=
  match drop_cols with
  | [] => r
  | _ => (fst r, Pandas.select (Pandas.keep_mask drop_cols cols) (snd r))
  end.

(** Row [r'] is row [r] cut down to the columns [kept] of a frame with
    columns [cols]: same label, one cell per kept column, and under each
    kept column the cell [r] holds under it. *)
Definition row_restricted (kept cols : list string) (r' r : nat * row)
    : Prop :=
  fst r' = fst r ∧
  length (snd r') = length kept ∧
  ∀ c, c ∈ kept -> lookup_cell kept (snd r') c = lookup_cell cols (snd r) c.

(** Two frames with the same columns and the same cells, row by row; the
    row labels may differ. *)
Definition same_values (a b : DataFrame) : Prop :=
  columns a = columns b ∧ snd <$> rows a = snd <$> rows b.

(** The writer does not depend on the row labels, as [to_csv(index=False)],
    which does not write them. *)
Definition ignores_labels (format_csv : DataFrame -> string) : Prop :=
  ∀ a b, same_values a b -> format_csv a = format_csv b.

(** The frame has a missing value somewhere. *)
Definition contains_null (df : DataFrame) : Prop :=
  ∃ r, r ∈ rows df ∧ None ∈ snd r.

(** Some row of the frame repeats an earlier one, value for value. *)
Definition contains_duplicate (df : DataFrame) : Prop :=
  ∃ (i j : nat) (a b : nat * row),
    (i < j)%nat ∧ rows df !! i = Some a ∧ rows df !! j = Some b ∧ snd a = snd b.

(** The lines [validate] prints after its first one. *)
Definition validation_lines (df : DataFrame) : list string :=
  match Pandas.any_null df, Pandas.any (Pandas.duplicated df) with
  | true, true => ["❗ Null values found"; "❗ Duplicate rows found"]
  | true, false => ["❗ Null values found"]
  | false, true => ["❗ Duplicate rows found"]
  | false, false => ["✅ Data passed validation"]
  end.

(** Some line of [lines] is of the kind recognised by [is_msg]. *)
Definition mentions (is_msg : string -> bool) (lines : list string) : Prop :=
  ∃ l, l ∈ lines ∧ is_msg l = true.

(** The reading of the specification under which each of the two messages
    of [transform] appears exactly when its option was given on the command
    line. *)
Definition messages_match_options (drop_cols : list string)
    (filter_dept : option string) (lines : list string) : Prop :=
  (mentions is_dropped_columns_msg lines <-> drop_cols ≠ []) ∧
  (mentions is_filtered_msg lines <-> is_Some filter_dept).

(** The reading of the specification under which [load] leaves at [target]
    the very bytes of the transformed file. *)
Definition byte_identical_copy (target : string) (s s' : State) : Prop :=
  files s' !! target = files s !! "transformed_sql.csv".

(** ** Concrete runs

    The commands instantiated with the plain CSV reader and writer, and the
    files of the scenarios of the specification. *)
Module Sample.

Definition nl : string := String PlainCsv.line_feed EmptyString.

Definition transform := Cli.transform PlainCsv.parse PlainCsv.format.
Definition load := Cli.load PlainCsv.parse PlainCsv.format.
Definition validate := Cli.validate PlainCsv.parse.

(** Columns [id, department, salary]; rows (1, Eng, 100), (2, Eng, null),
    (2, Eng, null). *)
Definition staff_csv : string :=
  "id,department,salary" +:+ nl +:+ "1,Eng,100" +:+ nl +:+
  "2,Eng," +:+ nl +:+ "2,Eng," +:+ nl.

Definition staff : DataFrame :=
  {| columns := ["id"; "department"; "salary"];
     rows := [ (0, [Some (VInt 1); Some (VStr "Eng"); Some (VFloat 100)]);
               (1, [Some (VInt 2); Some (VStr "Eng"); None]);
               (2, [Some (VInt 2); Some (VStr "Eng"); None]) ]%nat |}.

(** A table without a [department] column. *)
Definition pay_csv : string :=
  "id,salary" +:+ nl +:+ "1,100" +:+ nl +:+ "2,250" +:+ nl.

Definition pay : DataFrame :=
  {| columns := ["id"; "salary"];
     rows := [ (0, [Some (VInt 1); Some (VInt 100)]);
               (1, [Some (VInt 2); Some (VInt 250)]) ]%nat |}.

(** A table whose [code] column holds text, some of it made of digits. *)
Definition codes_csv : string :=
  "code,department" +:+ nl +:+ "007,Eng" +:+ nl +:+ "A12,Ops" +:+ nl.

(** A clean table: no missing value, no repeated row. *)
Definition clean_csv : string :=
  "id,department" +:+ nl +:+ "1,Eng" +:+ nl +:+ "2,Ops" +:+ nl.

Definition clean : DataFrame :=
  {| columns := ["id"; "department"];
     rows := [ (0, [Some (VInt 1); Some (VStr "Eng")]);
               (1, [Some (VInt 2); Some (VStr "Ops")]) ]%nat |}.

(** A working directory holding [content] in the extracted slot. *)
Definition extracted (content : string) : State :=
  {| files := {[ "extracted_sql.csv" := content ]};
     readonly := ∅; connections := 0; stdout := [] |}.

(** A working directory holding [content] in the transformed slot. *)
Definition staged (content : string) : State :=
  {| files := {[ "transformed_sql.csv" := content ]};
     readonly := ∅; connections := 0; stdout := [] |}.

Definition env : gmap string string :=
  {[ "SQL_SERVER" := "db.example"; "SQL_DATABASE" := "hr";
     "SQL_USER" := "etl"; "SQL_PASSWORD" := "secret" ]}.

(** A server that accepts every connection and knows one table. *)
Definition odbc_accepts (s_conn : string) : bool := true.

Definition sql_result (query : string) : option DataFrame :=
  if String.eqb query "SELECT * FROM staff" then Some staff else None.

Definition extract :=
  Cli.extract PlainCsv.format odbc_accepts sql_result env.

Definition idle : State :=
  {| files := ∅; readonly := ∅; connections := 0; stdout := [] |}.

(** A table whose first row has no department. *)
Definition gaps_csv : string :=
  "id,department" +:+ nl +:+ "1," +:+ nl +:+ "2,Eng" +:+ nl +:+
  "3,Eng" +:+ nl.

Definition gaps : DataFrame :=
  {| columns := ["id"; "department"];
     rows := [ (0, [Some (VInt 1); None]);
               (1, [Some (VInt 2); Some (VStr "Eng")]);
               (2, [Some (VInt 3); Some (VStr "Eng")]) ]%nat |}.

(** What [transform --drop-null] keeps of [gaps]: the rows labelled 1 and
    2. *)
Definition gaps_kept : DataFrame :=
  {| columns := ["id"; "department"];
     rows := [ (1, [Some (VInt 2); Some (VStr "Eng")]);
               (2, [Some (VInt 3); Some (VStr "Eng")]) ]%nat |}.

(** The same rows as read back from the file, labelled from 0. *)
Definition gaps_back : DataFrame :=
  {| columns := ["id"; "department"];
     rows := [ (0, [Some (VInt 2); Some (VStr "Eng")]);
               (1, [Some (VInt 3); Some (VStr "Eng")]) ]%nat |}.

(** A stand-in for the statistics table: the number of rows described. *)
Definition describe (df : DataFrame) : string :=
  "count " +:+ pretty (Pandas.len df).

Definition report := Reporter.report PlainCsv.parse describe.

(** The working directory of [extracted content] with the transformed slot
    protected against writing. *)
Definition protected (content : string) : State :=
  {| files := {[ "extracted_sql.csv" := content ]};
     readonly := {[ "transformed_sql.csv" ]}; connections := 0; stdout := [] |}.

End Sample.

(** ** Properties of the commands *)

Section Properties.

Variable parse_csv : string -> option DataFrame.
Variable format_csv : DataFrame -> string.
Variable odbc_accepts : string -> bool.
Variable sql_result : string -> option DataFrame.
Variable env : gmap string string.

Local Abbreviation transform := (Cli.transform parse_csv format_csv).
Local Abbreviation load := (Cli.load parse_csv format_csv).
Local Abbreviation validate := (Cli.validate parse_csv).
Local Abbreviation extract :=
  (Cli.extract format_csv odbc_accepts sql_result env).
Local Abbreviation read_csv := (Cli.read_csv parse_csv).
Local Abbreviation to_csv := (Cli.to_csv format_csv).

(** *** Lists, masks and column positions *)

Lemma select_sublist {A} (mask : list bool) (l : list A) :
  Pandas.select mask l `sublist_of` l.
Proof.
  revert l. induction mask as [|b mask IH]; intros [|x l]; simpl;
    try apply sublist_nil_l.
  destruct b; [apply sublist_skip | apply sublist_cons]; apply IH.
Qed.

Lemma filter_select {A} (f : A -> bool) (l : list A) :
  List.filter f l = Pandas.select (f <$> l) l.
Proof.
  induction l as [|x l IH]; simpl; [done|].
  destruct (f x); by rewrite IH.
Qed.

Lemma select_fmap {A B} (g : A -> B) (mask : list bool) (l : list A) :
  Pandas.select mask (g <$> l) = g <$> Pandas.select mask l.
Proof.
  revert l. induction mask as [|b mask IH]; intros [|x l]; simpl; try done.
  destruct b; simpl; by rewrite IH.
Qed.

Lemma elem_of_select {A} (mask : list bool) (l : list A) x :
  x ∈ Pandas.select mask l -> x ∈ l.
Proof. intros H. eapply elem_of_sublist; [done | apply select_sublist]. Qed.

Lemma get_loc_None name cols :
  Pandas.get_loc name cols = None <-> name ∉ cols.
Proof.
  induction cols as [|c cols IH]; simpl.
  - split; [intros _; apply not_elem_of_nil | done].
  - destruct (String.eqb_spec c name) as [->|Hne].
    + split; [done | intros H; exfalso; apply H; left].
    + rewrite not_elem_of_cons, <- IH.
      destruct (Pandas.get_loc name cols); simpl.
      * split; [done | by intros [_ ?]].
      * split; [intros _; split; [congruence | done] | done].
Qed.

Lemma select_keep_mask names cols :
  Pandas.select (Pandas.keep_mask names cols) cols =
  List.filter (fun c => negb (bool_decide (c ∈ names))) cols.
Proof. unfold Pandas.keep_mask. by rewrite filter_select. Qed.

Lemma printed_printed ls1 ls2 s :
  printed ls2 (printed ls1 s) = printed (ls1 ++ ls2)%list s.
Proof. unfold printed; simpl. by rewrite <- app_assoc. Qed.

Lemma printed_nil s : printed [] s = s.
Proof. destruct s; unfold printed; simpl. by rewrite app_nil_r. Qed.

Lemma echo_run line s : echo line s = (Returned tt, printed [line] s).
Proof. reflexivity. Qed.

Lemma read_csv_run path text df s :
  files s !! path = Some text -> parse_csv text = Some df ->
  read_csv path s = (Returned df, s).
Proof. intros Hf Hp. unfold Cli.read_csv. by rewrite Hf, Hp. Qed.

Lemma to_csv_run df path s :
  to_csv df path s =
    if bool_decide (path ∈ readonly s) then (Raised (PermissionError path), s)
    else (Returned tt, written path (format_csv df) s).
Proof. reflexivity. Qed.

(** What [transform] does once its input file has been read, in closed
    form: the lines of the steps, then either [KeyError] from the
    department filter, or the attempt to write the result of the steps. *)
Lemma transform_run input drop_null drop_cols filter_dept s text df :
  files s !! input = Some text -> parse_csv text = Some df ->
  transform input drop_null drop_cols filter_dept s =
    let s1 := printed (("🔧 Transforming " +:+ input)
                       :: step_lines drop_null drop_cols) s in
    match Transformer.run drop_null drop_cols filter_dept df with
    | None => (Raised (KeyError "department"), s1)
    | Some out =>
        let s2 := printed (filter_lines filter_dept) s1 in
        if bool_decide ("transformed_sql.csv" ∈ readonly s)
        then (Raised (PermissionError "transformed_sql.csv"), s2)
        else (Returned tt,
              printed ["📁 Saved to transformed_sql.csv"]
                (written "transformed_sql.csv" (format_csv out) s2))
    end.
Proof.
  intros Hf Hp.
  unfold Cli.transform, bind, Transformer.run. rewrite echo_run.
  rewrite (read_csv_run input text df) by done.
  destruct drop_cols as [|c cs], drop_null, filter_dept as [[|a d]|]; simpl.
  all: unfold Transformer.filter_department, Cli.column; simpl.
  all: try match goal with
           |- context [Pandas.getitem ?n ?d] => destruct (Pandas.getitem n d)
           end; simpl.
  all: unfold Cli.to_csv, echo, printed, written, filter_lines, step_lines,
         bind, ret, raise; simpl.
  all: try case_bool_decide; simpl.
  all: rewrite <- ?app_assoc; simpl; reflexivity.
Qed.

Lemma new_lines_printed ls s : new_lines s (printed ls s) = ls.
Proof. unfold new_lines, printed; simpl. apply drop_app_length. Qed.

(** *** The steps of the Transformer *)

Lemma drop_columns_columns drop_cols df :
  columns (Transformer.drop_columns drop_cols df) =
  List.filter (fun c => negb (bool_decide (c ∈ drop_cols))) (columns df).
Proof.
  destruct drop_cols as [|n ns].
  - symmetry. apply forallb_filter_id, forallb_forall. intros c _.
    apply negb_true_iff, bool_decide_eq_false, not_elem_of_nil.
  - apply select_keep_mask.
Qed.

Lemma drop_null_rows_columns drop_null df :
  columns (Transformer.drop_null_rows drop_null df) = columns df.
Proof. by destruct drop_null. Qed.

Lemma filter_department_columns filter_dept df out :
  Transformer.filter_department filter_dept df = Some out ->
  columns out = columns df.
Proof.
  unfold Transformer.filter_department.
  destruct (Transformer.active_filter filter_dept); [|by intros [= <-]].
  destruct (Pandas.getitem "department" df); simpl; [|done].
  by intros [= <-].
Qed.

Lemma run_columns drop_null drop_cols filter_dept df out :
  Transformer.run drop_null drop_cols filter_dept df = Some out ->
  columns out =
  List.filter (fun c => negb (bool_decide (c ∈ drop_cols))) (columns df).
Proof.
  intros H. apply filter_department_columns in H.
  by rewrite H, drop_null_rows_columns, drop_columns_columns.
Qed.

Lemma filter_department_rows filter_dept df out :
  Transformer.filter_department filter_dept df = Some out ->
  rows out `sublist_of` rows df.
Proof.
  unfold Transformer.filter_department.
  destruct (Transformer.active_filter filter_dept); [|by intros [= <-]].
  destruct (Pandas.getitem "department" df); simpl; [|done].
  intros [= <-]. apply select_sublist.
Qed.

Lemma dropna_no_null df r :
  r ∈ rows (Pandas.dropna df) -> has_null (snd r) = false.
Proof.
  simpl. rewrite list_elem_of_In, filter_In. intros [_ H].
  unfold has_null. apply not_true_is_false. intros Hex.
  apply existsb_exists in Hex as (c & Hc & Hnull).
  rewrite forallb_forall in H. specialize (H c Hc).
  unfold Pandas.notnull in H. by rewrite Hnull in H.
Qed.

(** The department filter fails exactly when it is applied to a frame
    without the column. *)
Lemma filter_department_None filter_dept df :
  Transformer.filter_department filter_dept df = None <->
  is_Some (Transformer.active_filter filter_dept) ∧ "department" ∉ columns df.
Proof.
  unfold Transformer.filter_department, Pandas.getitem.
  rewrite <- get_loc_None.
  destruct (Transformer.active_filter filter_dept) as [dept|].
  - destruct (Pandas.get_loc "department" (columns df)); simpl.
    + split; [done | by intros [_ ?]].
    + split; [intros _; split; [by eexists | done] | done].
  - split; [done | intros [[? ?] _]; done].
Qed.

Lemma active_filter_Some filter_dept dept :
  filter_dept = Some dept -> dept ≠ "" ->
  Transformer.active_filter filter_dept = Some dept.
Proof. intros -> H. by destruct dept. Qed.

(** *** Running [transform] *)

Lemma transform_returned input drop_null drop_cols filter_dept s s' text df :
  files s !! input = Some text -> parse_csv text = Some df ->
  transform input drop_null drop_cols filter_dept s = (Returned tt, s') ->
  ∃ out,
    Transformer.run drop_null drop_cols filter_dept df = Some out ∧
    ("transformed_sql.csv" ∉ readonly s) ∧
    s' = printed ["📁 Saved to transformed_sql.csv"]
           (written "transformed_sql.csv" (format_csv out)
              (printed (filter_lines filter_dept)
                 (printed (("🔧 Transforming " +:+ input)
                           :: step_lines drop_null drop_cols) s))).
Proof.
  intros Hf Hp. rewrite (transform_run _ _ _ _ _ _ _ Hf Hp). cbv zeta.
  destruct (Transformer.run drop_null drop_cols filter_dept df) as [out|];
    [|done].
  case_bool_decide; [done|]. intros [= <-]. by exists out.
Qed.

Lemma transform_raised_before_reading input drop_null drop_cols filter_dept s :
  (files s !! input = None ∨
   ∃ text, files s !! input = Some text ∧ parse_csv text = None) ->
  ∃ e, transform input drop_null drop_cols filter_dept s =
         (Raised e, printed ["🔧 Transforming " +:+ input] s).
Proof.
  unfold Cli.transform, bind. rewrite echo_run. unfold Cli.read_csv.
  intros [H | (text & H & Hp)]; simpl; rewrite H; [|rewrite Hp]; by eexists.
Qed.

Lemma new_lines_saved l1 l2 l3 path text s :
  new_lines s (printed l3 (written path text (printed l2 (printed l1 s)))) =
  (l1 ++ l2 ++ l3)%list.
Proof.
  unfold new_lines, printed, written; simpl.
  rewrite <- !app_assoc. by rewrite drop_app_length.
Qed.

Lemma step_lines_dropped drop_null drop_cols :
  drop_cols ≠ [] ->
  dropped_columns_msg drop_cols ∈ step_lines drop_null drop_cols.
Proof. intros H. unfold step_lines. destruct drop_cols; [done|]. left. Qed.

Lemma transform_returned_file input drop_null drop_cols filter_dept s s' text df :
  files s !! input = Some text -> parse_csv text = Some df ->
  transform input drop_null drop_cols filter_dept s = (Returned tt, s') ->
  ∃ out,
    Transformer.run drop_null drop_cols filter_dept df = Some out ∧
    files s' !! "transformed_sql.csv" = Some (format_csv out) ∧
    new_lines s s' =
      (("🔧 Transforming " +:+ input) :: step_lines drop_null drop_cols ++
       filter_lines filter_dept ++ ["📁 Saved to transformed_sql.csv"])%list.
Proof.
  intros Hf Hp Hrun.
  destruct (transform_returned _ _ _ _ _ _ _ _ Hf Hp Hrun)
    as (out & Hout & _ & ->).
  exists out. split; [done|]. split.
  - simpl. apply lookup_insert_eq.
  - unfold new_lines, printed, written; simpl.
    rewrite <- !app_assoc. by rewrite drop_app_length.
Qed.

(** *** The lines [transform] prints *)

Lemma transform_lines input drop_null drop_cols filter_dept s :
  let result := transform input drop_null drop_cols filter_dept s in
  let all_lines :=
    (step_lines drop_null drop_cols ++ filter_lines filter_dept ++
     ["📁 Saved to transformed_sql.csv"])%list in
  ∃ rest,
    new_lines s (snd result) = ("🔧 Transforming " +:+ input) :: rest ∧
    (∀ l, l ∈ rest -> l ∈ all_lines) ∧
    (fst result = Returned tt -> rest = all_lines).
Proof.
  intros result all_lines. subst result.
  destruct (files s !! input) as [text|] eqn:Hf;
    [destruct (parse_csv text) as [df|] eqn:Hp|].
  - rewrite (transform_run _ _ _ _ _ _ _ Hf Hp). cbv zeta.
    destruct (Transformer.run drop_null drop_cols filter_dept df) as [out|].
    + case_bool_decide; simpl.
      * exists (step_lines drop_null drop_cols ++ filter_lines filter_dept)%list.
        rewrite printed_printed, new_lines_printed.
        split; [done|]. split; [|done].
        intros l Hl. subst all_lines. rewrite app_assoc.
        apply elem_of_app. by left.
      * exists all_lines. rewrite new_lines_saved. by subst all_lines.
    + simpl. exists (step_lines drop_null drop_cols).
      rewrite new_lines_printed. split; [done|]. split; [|done].
      intros l Hl. apply elem_of_app. by left.
  - destruct (transform_raised_before_reading input drop_null drop_cols
                filter_dept s) as (e & ->); [right; eauto|].
    simpl. exists []. rewrite new_lines_printed.
    split; [done|]. split; [|done]. intros l Hl. by apply not_elem_of_nil in Hl.
  - destruct (transform_raised_before_reading input drop_null drop_cols
                filter_dept s) as (e & ->); [by left|].
    simpl. exists []. rewrite new_lines_printed.
    split; [done|]. split; [|done]. intros l Hl. by apply not_elem_of_nil in Hl.
Qed.

Lemma transform_no_dropped_line input drop_null drop_cols filter_dept s :
  drop_cols = [] ->
  ¬ mentions is_dropped_columns_msg
      (new_lines s (snd (transform input drop_null drop_cols filter_dept s))).
Proof.
  destruct (transform_lines input drop_null drop_cols filter_dept s)
    as (rest & Hlines & Hrest & _).
  intros -> (l & Hl & Hm). rewrite Hlines in Hl.
  apply elem_of_cons in Hl as [-> | Hl]; [done|].
  apply Hrest in Hl.
  rewrite !elem_of_app in Hl. destruct Hl as [Hl | [Hl | Hl]].
  - unfold step_lines in Hl. simpl in Hl. destruct drop_null; simpl in Hl.
    + apply list_elem_of_singleton in Hl as ->. done.
    + by apply not_elem_of_nil in Hl.
  - unfold filter_lines in Hl.
    destruct (Transformer.active_filter filter_dept).
    + apply list_elem_of_singleton in Hl as ->. done.
    + by apply not_elem_of_nil in Hl.
  - apply list_elem_of_singleton in Hl as ->. done.
Qed.

Lemma transform_no_filtered_line input drop_null drop_cols filter_dept s :
  Transformer.active_filter filter_dept = None ->
  ¬ mentions is_filtered_msg
      (new_lines s (snd (transform input drop_null drop_cols filter_dept s))).
Proof.
  destruct (transform_lines input drop_null drop_cols filter_dept s)
    as (rest & Hlines & Hrest & _).
  intros Hact (l & Hl & Hm). rewrite Hlines in Hl.
  apply elem_of_cons in Hl as [-> | Hl]; [done|].
  apply Hrest in Hl.
  rewrite !elem_of_app in Hl. destruct Hl as [Hl | [Hl | Hl]].
  - unfold step_lines in Hl. rewrite elem_of_app in Hl.
    destruct Hl as [Hl | Hl].
    + destruct (truthy drop_cols).
      * apply list_elem_of_singleton in Hl as ->. done.
      * by apply not_elem_of_nil in Hl.
    + destruct drop_null.
      * apply list_elem_of_singleton in Hl as ->. done.
      * by apply not_elem_of_nil in Hl.
  - unfold filter_lines in Hl. rewrite Hact in Hl.
    by apply not_elem_of_nil in Hl.
  - apply list_elem_of_singleton in Hl as ->. done.
Qed.

(** *** Rows through the steps *)

Lemma select_all {A} (l : list A) : ∃ mask, l = Pandas.select mask l.
Proof.
  exists ((fun _ => true) <$> l). rewrite <- filter_select.
  symmetry. by apply forallb_filter_id, forallb_forall.
Qed.

Lemma select_select_sublist {A} (m1 m2 : list bool) (l : list A) :
  Pandas.select m2 (Pandas.select m1 l) `sublist_of` l.
Proof.
  etransitivity; apply select_sublist.
Qed.

Lemma drop_columns_rows drop_cols df :
  rows (Transformer.drop_columns drop_cols df) =
  restrict_row drop_cols (columns df) <$> rows df.
Proof.
  destruct drop_cols as [|n ns]; simpl; [|done].
  by rewrite list_fmap_id.
Qed.

Lemma drop_null_rows_select drop_null df :
  ∃ mask, rows (Transformer.drop_null_rows drop_null df) =
          Pandas.select mask (rows df).
Proof.
  destruct drop_null; simpl; [|apply select_all].
  eexists. apply filter_select.
Qed.

Lemma filter_department_select filter_dept df out :
  Transformer.filter_department filter_dept df = Some out ->
  ∃ mask, rows out = Pandas.select mask (rows df).
Proof.
  unfold Transformer.filter_department.
  destruct (Transformer.active_filter filter_dept);
    [|intros [= <-]; apply select_all].
  destruct (Pandas.getitem "department" df); simpl; [|done].
  intros [= <-]. by eexists.
Qed.

Lemma run_rows drop_null drop_cols filter_dept df out :
  Transformer.run drop_null drop_cols filter_dept df = Some out ->
  ∃ kept,
    kept `sublist_of` rows df ∧
    rows out = restrict_row drop_cols (columns df) <$> kept ∧
    columns out = columns (Transformer.drop_columns drop_cols df).
Proof.
  intros Hout. unfold Transformer.run in Hout.
  pose proof (filter_department_columns _ _ _ Hout) as Hcols.
  rewrite drop_null_rows_columns in Hcols.
  apply filter_department_select in Hout as (m2 & Hrows).
  destruct (drop_null_rows_select drop_null
              (Transformer.drop_columns drop_cols df)) as (m1 & Hrows1).
  rewrite Hrows1, drop_columns_rows, !select_fmap in Hrows.
  eexists. split; [apply (select_select_sublist m1 m2)|]. done.
Qed.

Lemma length_select {A B} (mask : list bool) (l : list A) (k : list B) :
  length l = length k ->
  length (Pandas.select mask l) = length (Pandas.select mask k).
Proof.
  revert l k. induction mask as [|b mask IH]; intros [|x l] [|y k]; simpl;
    try done.
  intros [= Hlen]. destruct b; simpl; auto.
Qed.

Lemma lookup_cell_cons_ne c x cols (y : cell) (r : row) :
  x ≠ c ->
  lookup_cell (x :: cols) (y :: r) c = lookup_cell cols r c.
Proof.
  intros Hne. unfold lookup_cell. simpl.
  destruct (String.eqb_spec x c); [done|].
  by destruct (Pandas.get_loc c cols).
Qed.

Lemma lookup_cell_select mask cols (r : row) c :
  NoDup cols -> length r = length cols ->
  c ∈ Pandas.select mask cols ->
  lookup_cell (Pandas.select mask cols) (Pandas.select mask r) c =
  lookup_cell cols r c.
Proof.
  revert cols r.
  induction mask as [|b mask IH]; intros [|x cols] [|y r] Hnd Hlen Hin;
    simpl in *; try discriminate; try (by apply not_elem_of_nil in Hin).
  injection Hlen as Hlen. apply NoDup_cons in Hnd as [Hx Hnd].
  destruct b.
  - destruct (decide (x = c)) as [->|Hne].
    + unfold lookup_cell. simpl. by rewrite String.eqb_refl.
    + rewrite !lookup_cell_cons_ne by done.
      apply elem_of_cons in Hin as [-> | Hin]; [done|]. by apply IH.
  - assert (x ≠ c) as Hne.
    { intros ->. apply Hx. by apply elem_of_select in Hin. }
    rewrite lookup_cell_cons_ne by done. by apply IH.
Qed.

Lemma restrict_row_spec drop_cols df r :
  well_formed df -> r ∈ rows df ->
  let cols' := columns (Transformer.drop_columns drop_cols df) in
  let r' := restrict_row drop_cols (columns df) r in
  fst r' = fst r ∧
  length (snd r') = length cols' ∧
  ∀ c, c ∈ cols' ->
       lookup_cell cols' (snd r') c = lookup_cell (columns df) (snd r) c.
Proof.
  intros [Hnd Hlen] Hr.
  rewrite Forall_forall in Hlen. specialize (Hlen r Hr).
  destruct drop_cols as [|n ns]; simpl; [done|].
  split; [done|]. split; [by apply length_select|].
  intros c Hc. by apply lookup_cell_select.
Qed.

(** *** The claims about [transform] *)

(** C1: whenever [transform] succeeds on an input dataset, the frame it
    writes is the result of the three optional steps applied in the fixed
    order drop columns, drop null rows, department filter, and the lines it
    prints follow the same order.  In particular, with the drop-null flag
    set, a row that has a missing value when the drop-null step runs is not
    in the output, whatever the department filter is and whether or not the
    row would pass it. *)
Theorem transform_applies_steps_in_order
    input drop_null drop_cols filter_dept s s' text df :
  files s !! input = Some text -> parse_csv text = Some df ->
  transform input drop_null drop_cols filter_dept s = (Returned tt, s') ->
  ∃ out,
    Transformer.filter_department filter_dept
      (Transformer.drop_null_rows drop_null
         (Transformer.drop_columns drop_cols df)) = Some out ∧
    files s' !! "transformed_sql.csv" = Some (format_csv out) ∧
    new_lines s s' =
      (("🔧 Transforming " +:+ input) :: step_lines drop_null drop_cols ++
       filter_lines filter_dept ++ ["📁 Saved to transformed_sql.csv"])%list ∧
    (drop_null = true ->
     ∀ r, r ∈ rows (Transformer.drop_columns drop_cols df) ->
          has_null (snd r) = true -> r ∉ rows out).
Proof.
  intros Hf Hp Hrun.
  destruct (transform_returned_file _ _ _ _ _ _ _ _ Hf Hp Hrun)
    as (out & Hout & Hfile & Hlines).
  exists out. repeat split; try done.
  intros -> r _ Hnull Hin.
  apply filter_department_rows in Hout.
  pose proof (elem_of_sublist _ _ _ Hin Hout) as Hin'.
  apply dropna_no_null in Hin'. congruence.
Qed.

(** C3: on an input dataset without a [department] column, [transform]
    with a department filter raises [KeyError] for that column, and no file
    is written: the transformed slot, like every other file, is as it was
    before. *)
Theorem transform_missing_department_raises
    input drop_null drop_cols filter_dept dept s text df :
  files s !! input = Some text -> parse_csv text = Some df ->
  "department" ∉ columns df ->
  filter_dept = Some dept -> dept ≠ "" ->
  ∃ s', transform input drop_null drop_cols filter_dept s =
          (Raised (KeyError "department"), s') ∧
        files s' = files s ∧
        files s' !! "transformed_sql.csv" = files s !! "transformed_sql.csv".
Proof.
  intros Hf Hp Hmiss Hfd Hne.
  rewrite (transform_run _ _ _ _ _ _ _ Hf Hp). cbv zeta.
  assert (Transformer.run drop_null drop_cols filter_dept df = None) as ->.
  { apply filter_department_None. split.
    - rewrite (active_filter_Some _ _ Hfd Hne). by eexists.
    - rewrite drop_null_rows_columns, drop_columns_columns.
      rewrite list_elem_of_In, filter_In, <- list_elem_of_In.
      by intros [? _]. }
  eexists. split; [reflexivity|]. done.
Qed.

(** C4: whenever [transform] succeeds, the columns of the frame it writes
    are columns of the input, and as a set they are the input columns
    minus those names of [drop_cols] that are input columns. *)
Theorem transform_output_columns
    input drop_null drop_cols filter_dept s s' text df :
  files s !! input = Some text -> parse_csv text = Some df ->
  transform input drop_null drop_cols filter_dept s = (Returned tt, s') ->
  ∃ out,
    Transformer.run drop_null drop_cols filter_dept df = Some out ∧
    files s' !! "transformed_sql.csv" = Some (format_csv out) ∧
    columns out ⊆ columns df ∧
    (list_to_set (columns out) : gset string) =
      list_to_set (columns df) ∖
        (list_to_set drop_cols ∩ list_to_set (columns df)).
Proof.
  intros Hf Hp Hrun.
  destruct (transform_returned_file _ _ _ _ _ _ _ _ Hf Hp Hrun)
    as (out & Hout & Hfile & _).
  exists out. split; [done|]. split; [done|].
  pose proof (run_columns _ _ _ _ _ Hout) as Hcols.
  assert (∀ c, c ∈ columns out <-> c ∈ columns df ∧ c ∉ drop_cols) as Hiff.
  { intros c. rewrite Hcols, list_elem_of_In, filter_In, <- list_elem_of_In.
    by rewrite negb_true_iff, bool_decide_eq_false. }
  split.
  - intros c Hc. by apply Hiff in Hc as [? _].
  - apply set_eq. intros c.
    rewrite elem_of_difference, elem_of_intersection, !elem_of_list_to_set.
    rewrite Hiff. split.
    + intros [Hin Hnot]. split; [done|]. by intros [? _].
    + intros [Hin Hnot]. split; [done|]. intros Hd. by apply Hnot.
Qed.

(** C5: with a non-empty [drop_cols], on any well-formed input dataset and
    with the output slot writable, [transform] removes the named columns
    that exist and ignores the other names.  The column drop leaves the
    input columns not named and cuts every row down to them, cell for cell.
    [transform] then returns, having written a frame with these columns
    whose rows are, in order, input rows cut down to them, unless the
    department filter is applied and [department] is not among these
    columns: the only error it can raise is that [KeyError], never one for a
    name of [drop_cols]. *)
Theorem transform_ignores_missing_drop_cols
    input drop_null drop_cols filter_dept s text df :
  files s !! input = Some text -> parse_csv text = Some df ->
  well_formed df ->
  drop_cols ≠ [] ->
  "transformed_sql.csv" ∉ readonly s ->
  let kept :=
    List.filter (fun c => negb (bool_decide (c ∈ drop_cols))) (columns df) in
  columns (Pandas.drop drop_cols df) = kept ∧
  (∀ c, c ∈ kept <-> c ∈ columns df ∧ c ∉ drop_cols) ∧
  Forall2 (row_restricted kept (columns df))
    (rows (Pandas.drop drop_cols df)) (rows df) ∧
  ∃ s', dropped_columns_msg drop_cols ∈ new_lines s s' ∧
    ((∃ out survivors,
        transform input drop_null drop_cols filter_dept s = (Returned tt, s') ∧
        files s' !! "transformed_sql.csv" = Some (format_csv out) ∧
        columns out = kept ∧
        survivors `sublist_of` rows df ∧
        Forall2 (row_restricted kept (columns df)) (rows out) survivors)
     ∨ (transform input drop_null drop_cols filter_dept s =
          (Raised (KeyError "department"), s') ∧
        is_Some (Transformer.active_filter filter_dept) ∧
        "department" ∉ kept)).
Proof.
  intros Hf Hp Hwf Hne Hw kept.
  assert (Hcols : columns (Transformer.drop_columns drop_cols df) = kept)
    by apply drop_columns_columns.
  assert (Hcut : ∀ r, r ∈ rows df ->
            row_restricted kept (columns df)
              (restrict_row drop_cols (columns df) r) r).
  { intros r Hr. pose proof (restrict_row_spec drop_cols df r Hwf Hr) as Hspec.
    cbv zeta in Hspec. by rewrite Hcols in Hspec. }
  split; [apply select_keep_mask|]. split.
  { intros c. subst kept.
    rewrite list_elem_of_In, filter_In, <- list_elem_of_In.
    by rewrite negb_true_iff, bool_decide_eq_false. }
  split.
  { replace (rows (Pandas.drop drop_cols df))
      with (restrict_row drop_cols (columns df) <$> rows df)
      by (by destruct drop_cols).
    apply Forall2_fmap_l, Forall_Forall2_diag, Forall_forall. exact Hcut. }
  rewrite (transform_run _ _ _ _ _ _ _ Hf Hp). cbv zeta.
  rewrite bool_decide_eq_false_2 by done.
  pose proof (step_lines_dropped drop_null _ Hne) as Hmsg.
  destruct (Transformer.run drop_null drop_cols filter_dept df) as [out|] eqn:E.
  - destruct (run_rows _ _ _ _ _ E) as (survivors & Hsub & Hrows & Hout).
    eexists. split; [|left; exists out, survivors; split; [reflexivity|]].
    + rewrite new_lines_saved. right.
      apply elem_of_app. by left.
    + split; [apply lookup_insert_eq|]. split; [by rewrite Hout|].
      split; [done|]. rewrite Hrows.
      apply Forall2_fmap_l, Forall_Forall2_diag, Forall_forall.
      intros r Hr. apply Hcut. by apply (elem_of_sublist _ _ _ Hr Hsub).
  - eexists. split; [|right; split; [reflexivity|]].
    + rewrite new_lines_printed. by right.
    + apply filter_department_None in E as [Hact Hmiss].
      by rewrite drop_null_rows_columns, drop_columns_columns in Hmiss.
Qed.

(** C10: whenever [transform] succeeds on a well-formed input dataset, the
    rows it writes correspond, one to one and in order, to a subsequence of
    the input rows: each output row carries the label of its input row,
    has one cell per output column, and under every output column holds the
    cell the input row holds under that column. *)
Theorem transform_preserves_rows
    input drop_null drop_cols filter_dept s s' text df :
  files s !! input = Some text -> parse_csv text = Some df ->
  well_formed df ->
  transform input drop_null drop_cols filter_dept s = (Returned tt, s') ->
  ∃ out kept,
    Transformer.run drop_null drop_cols filter_dept df = Some out ∧
    files s' !! "transformed_sql.csv" = Some (format_csv out) ∧
    kept `sublist_of` rows df ∧
    Forall2 (fun r' r =>
               fst r' = fst r ∧
               length (snd r') = length (columns out) ∧
               ∀ c, c ∈ columns out ->
                    lookup_cell (columns out) (snd r') c =
                    lookup_cell (columns df) (snd r) c)
            (rows out) kept.
Proof.
  intros Hf Hp Hwf Hrun.
  destruct (transform_returned_file _ _ _ _ _ _ _ _ Hf Hp Hrun)
    as (out & Hout & Hfile & _).
  destruct (run_rows _ _ _ _ _ Hout) as (kept & Hsub & Hrows & Hcols).
  exists out, kept. repeat split; try done.
  rewrite Hrows, Hcols. apply Forall2_fmap_l, Forall_Forall2_diag.
  apply Forall_forall. intros r Hr.
  pose proof (elem_of_sublist _ _ _ Hr Hsub) as Hin.
  by apply restrict_row_spec.
Qed.

(** C8, as the code has it: in every run of [transform], no
    dropped-columns line is printed when no [--drop-cols] was given, and no
    department-filter line is printed when [--filter-dept] was not given or
    was given as the empty string; in every run that returns, the
    dropped-columns line is printed when some [--drop-cols] was given and
    the department-filter line is printed when [--filter-dept] was given
    with a non-empty value, so that each line appears exactly in that
    case. *)
Theorem transform_messages input drop_null drop_cols filter_dept s :
  let result := transform input drop_null drop_cols filter_dept s in
  let lines := new_lines s (snd result) in
  (drop_cols = [] -> ¬ mentions is_dropped_columns_msg lines) ∧
  (Transformer.active_filter filter_dept = None ->
   ¬ mentions is_filtered_msg lines) ∧
  (fst result = Returned tt ->
   (drop_cols ≠ [] -> dropped_columns_msg drop_cols ∈ lines) ∧
   (∀ dept, filter_dept = Some dept -> dept ≠ "" ->
            filtered_msg dept ∈ lines) ∧
   (mentions is_dropped_columns_msg lines <-> drop_cols ≠ []) ∧
   (mentions is_filtered_msg lines <->
    ∃ dept, filter_dept = Some dept ∧ dept ≠ "")).
Proof.
  intros result lines.
  destruct (transform_lines input drop_null drop_cols filter_dept s)
    as (rest & Hlines & Hrest & Hret).
  fold result in Hlines, Hret. fold lines in Hlines.
  pose proof (transform_no_dropped_line input drop_null drop_cols
                filter_dept s) as Hnodrop.
  pose proof (transform_no_filtered_line input drop_null drop_cols
                filter_dept s) as Hnofilter.
  fold result in Hnodrop, Hnofilter. fold lines in Hnodrop, Hnofilter.
  split; [done|]. split; [done|].
  intros Hok. specialize (Hret Hok).
  assert (Hdrop : drop_cols ≠ [] -> dropped_columns_msg drop_cols ∈ lines).
  { intros Hne. rewrite Hlines, Hret. right.
    apply elem_of_app. left. by apply step_lines_dropped. }
  assert (Hfilter : ∀ dept, filter_dept = Some dept -> dept ≠ "" ->
                            filtered_msg dept ∈ lines).
  { intros dept Hfd Hne. rewrite Hlines, Hret. right.
    apply elem_of_app. right. apply elem_of_app. left.
    unfold filter_lines. rewrite (active_filter_Some _ _ Hfd Hne). left. }
  repeat split; try done.
  - intros Hm Hnil. by apply (Hnodrop Hnil).
  - intros Hne. exists (dropped_columns_msg drop_cols). split; [auto | reflexivity].
  - intros Hm. destruct filter_dept as [[|a d]|].
    + by destruct (Hnofilter eq_refl).
    + by eexists.
    + by destruct (Hnofilter eq_refl).
  - intros (dept & Hfd & Hne). exists (filtered_msg dept). split; [auto | reflexivity].
Qed.

(** C9: [transform] given [--filter-dept] with the empty string runs
    exactly as without the option: same outcome, same files, same lines.
    When the input is read and the output slot is writable it returns even
    if there is no [department] column, writes the frame that the first two
    steps produce, all rows kept, and prints no department-filter line. *)
Theorem transform_empty_filter_is_absent input drop_null drop_cols s :
  transform input drop_null drop_cols (Some "") s =
  transform input drop_null drop_cols None s ∧
  ∀ text df,
    files s !! input = Some text -> parse_csv text = Some df ->
    "transformed_sql.csv" ∉ readonly s ->
    ∃ s', transform input drop_null drop_cols (Some "") s = (Returned tt, s') ∧
      files s' !! "transformed_sql.csv" =
        Some (format_csv (Transformer.drop_null_rows drop_null
                            (Transformer.drop_columns drop_cols df))) ∧
      ¬ mentions is_filtered_msg (new_lines s s').
Proof.
  split; [reflexivity|]. intros text df Hf Hp Hw.
  pose proof (transform_no_filtered_line input drop_null drop_cols
                (Some "") s eq_refl) as Hnone.
  revert Hnone.
  rewrite (transform_run _ _ _ _ _ _ _ Hf Hp). cbv zeta.
  rewrite bool_decide_eq_false_2 by done.
  unfold Transformer.run, Transformer.filter_department. simpl.
  intros Hnone. eexists. split; [reflexivity|]. split.
  - apply lookup_insert_eq.
  - by apply Hnone.
Qed.

(** *** [load] *)

(** C2, as the code has it: when the transformed file parses to a dataset
    and the target can be written, [load] returns having replaced the
    target by the serialisation of that dataset, every other file being as
    before; the target then has the bytes of the transformed file exactly
    when the transformed file is itself that serialisation. *)
Theorem load_writes_serialisation target s staged df :
  files s !! "transformed_sql.csv" = Some staged ->
  parse_csv staged = Some df ->
  target ∉ readonly s ->
  ∃ s', load target s = (Returned tt, s') ∧
    files s' = <[target := format_csv df]> (files s) ∧
    files s' !! target = Some (format_csv df) ∧
    (byte_identical_copy target s s' <-> format_csv df = staged).
Proof.
  intros Hf Hp Hw. unfold Cli.load, bind. rewrite echo_run.
  rewrite (read_csv_run _ staged df) by done.
  rewrite to_csv_run. simpl. rewrite bool_decide_eq_false_2 by done.
  eexists. split; [reflexivity|]. simpl.
  split; [done|]. split; [apply lookup_insert_eq|].
  unfold byte_identical_copy. simpl.
  rewrite lookup_insert_eq, Hf. split; congruence.
Qed.

(** *** [validate] *)

Lemma validate_run input s text df :
  files s !! input = Some text -> parse_csv text = Some df ->
  validate input s =
    (Returned tt,
     printed (("🔍 Validating " +:+ input) :: validation_lines df) s).
Proof.
  intros Hf Hp. unfold Cli.validate, bind. rewrite echo_run.
  rewrite (read_csv_run input text df) by done.
  unfold validation_lines.
  destruct (Pandas.any_null df), (Pandas.any (Pandas.duplicated df)); simpl.
  all: unfold bind, echo, ret, printed; simpl.
  all: rewrite <- ?app_assoc; reflexivity.
Qed.

Lemma scalar_eqb_eq a b : scalar_eqb a b = true <-> a = b.
Proof.
  destruct a, b; simpl; try (split; [done | congruence]).
  - rewrite Z.eqb_eq. split; congruence.
  - rewrite Z.eqb_eq. split; congruence.
  - rewrite String.eqb_eq. split; congruence.
Qed.

Lemma cell_eqb_eq a b : Pandas.cell_eqb a b = true <-> a = b.
Proof.
  destruct a, b; simpl; try (split; [done | congruence]).
  rewrite scalar_eqb_eq. split; congruence.
Qed.

Lemma row_eqb_eq a b : Pandas.row_eqb a b = true <-> a = b.
Proof.
  revert b. induction a as [|x a IH]; intros [|y b]; simpl;
    try (split; [done | congruence]).
  rewrite andb_true_iff, cell_eqb_eq, IH. split; [intros [-> ->] | intros [= -> ->]]; done.
Qed.

Lemma seen_before (r : row) seen :
  existsb (Pandas.row_eqb r) seen = true <-> r ∈ seen.
Proof.
  rewrite existsb_exists. split.
  - intros (x & Hx & Heq). apply row_eqb_eq in Heq as ->.
    by apply list_elem_of_In.
  - intros Hin. exists r. split; [by apply list_elem_of_In | by apply row_eqb_eq].
Qed.

Lemma any_null_spec df : Pandas.any_null df = true <-> contains_null df.
Proof.
  unfold Pandas.any_null, contains_null. rewrite existsb_exists. split.
  - intros (r & Hr & Hex). apply existsb_exists in Hex as (c & Hc & Hnull).
    exists r. split; [by apply list_elem_of_In|].
    destruct c; [done|]. by apply list_elem_of_In.
  - intros (r & Hr & Hnone). exists r. split; [by apply list_elem_of_In|].
    apply existsb_exists. exists None. split; [by apply list_elem_of_In | done].
Qed.

Lemma any_duplicated_from seen (rs : list (nat * row)) :
  Pandas.any (Pandas.duplicated_from seen rs) = true <->
  ∃ (j : nat) (b : nat * row), rs !! j = Some b ∧
    (snd b ∈ seen ∨
     ∃ (i : nat) (a : nat * row),
       (i < j)%nat ∧ rs !! i = Some a ∧ snd a = snd b).
Proof.
  revert seen. induction rs as [|r rs IH]; intros seen.
  - simpl. split; [done | by intros (j & b & Hj & _)].
  - unfold Pandas.any in *. simpl. unfold id at 1.
    rewrite orb_true_iff, seen_before, IH. split.
    + intros [Hseen | (j & b & Hj & Hcase)].
      * exists 0%nat, r. split; [done | by left].
      * exists (S j), b. split; [done|].
        destruct Hcase as [Hin | (i & a & Hlt & Hi & Heq)].
        -- apply elem_of_cons in Hin as [Heq | Hin]; [|by left].
           right. exists 0%nat, r. split; [lia | done].
        -- right. exists (S i), a. split; [lia | done].
    + intros (j & b & Hj & Hcase). destruct j as [|j].
      * simpl in Hj. injection Hj as <-.
        destruct Hcase as [Hin | (i & a & Hlt & _)]; [by left | lia].
      * right. exists j, b. split; [done|].
        destruct Hcase as [Hin | (i & a & Hlt & Hi & Heq)].
        -- left. by right.
        -- destruct i as [|i].
           ++ simpl in Hi. injection Hi as <-. left. rewrite Heq. left.
           ++ right. exists i, a. split; [lia | done].
Qed.

Lemma any_duplicated_spec df :
  Pandas.any (Pandas.duplicated df) = true <->
  columns df ≠ [] ∧ contains_duplicate df.
Proof.
  unfold Pandas.duplicated, Pandas.empty, contains_duplicate.
  destruct (columns df) as [|c cs] eqn:Ec.
  { split; [done | by intros [? _]]. }
  destruct (rows df) as [|r rs] eqn:Er.
  { split; [done | by intros [_ (i & j & a & b & _ & _ & Hj & _)]]. }
  rewrite any_duplicated_from. split.
  - intros (j & b & Hj & [Hin | (i & a & Hlt & Hi & Heq)]).
    + by apply not_elem_of_nil in Hin.
    + split; [done|]. by exists i, j, a, b.
  - intros [_ (i & j & a & b & Hlt & Hi & Hj & Heq)].
    exists j, b. split; [done|]. right. by exists i, a.
Qed.

(** C6: [validate] runs the null check and the duplicate check one after
    the other, whatever the first one finds.  On a dataset with a missing
    value and a repeated row it prints both issue lines; with neither it
    prints the single success line; with only one of the two, the line of
    that issue alone.  It never raises once the file is read and it writes
    no file. *)
Theorem validate_reports_both_checks input s text df :
  files s !! input = Some text -> parse_csv text = Some df ->
  ∃ s', validate input s = (Returned tt, s') ∧
    files s' = files s ∧
    (contains_null df -> contains_duplicate df -> columns df ≠ [] ->
     new_lines s s' = [ "🔍 Validating " +:+ input;
                        "❗ Null values found"; "❗ Duplicate rows found" ]) ∧
    (¬ contains_null df -> ¬ contains_duplicate df ->
     new_lines s s' = [ "🔍 Validating " +:+ input;
                        "✅ Data passed validation" ]) ∧
    (contains_null df -> ¬ contains_duplicate df ->
     new_lines s s' = [ "🔍 Validating " +:+ input; "❗ Null values found" ]) ∧
    (¬ contains_null df -> contains_duplicate df -> columns df ≠ [] ->
     new_lines s s' = [ "🔍 Validating " +:+ input;
                        "❗ Duplicate rows found" ]).
Proof.
  intros Hf Hp. eexists. split; [by apply (validate_run _ _ text df)|].
  split; [done|]. rewrite new_lines_printed. unfold validation_lines.
  pose proof (any_null_spec df) as Hn.
  pose proof (any_duplicated_spec df) as Hd.
  destruct (Pandas.any_null df), (Pandas.any (Pandas.duplicated df)).
  all: repeat split; try done; intros; exfalso.
  all: match goal with
       | H : ¬ contains_null _ |- _ => by apply H, Hn
       | H : ¬ contains_duplicate _ |- _ => by apply H, Hd
       | H : contains_null _ |- _ => by apply Hn in H
       | H : contains_duplicate _ |- _ =>
           assert (false = true) by (by apply Hd); done
       end.
Qed.

(** *** [extract] *)

Lemma extract_closes_on_success table s df :
  odbc_accepts (conn_str env) = true ->
  sql_result ("SELECT * FROM " +:+ table) = Some df ->
  ∃ o s', extract table s = (o, s') ∧ connections s' = connections s.
Proof.
  intros Hc Hq. unfold Cli.extract, bind, Cli.connect, Cli.read_sql.
  rewrite echo_run. simpl. rewrite Hc, Hq. simpl.
  unfold Cli.to_csv. simpl. case_bool_decide; simpl; by do 2 eexists.
Qed.

(** C7 (the code does not do this): when the connection opens and the
    query is rejected, [extract] stops at [pd.read_sql] with the error of
    the query, [conn.close()] is not reached, and the state is left with
    one more open connection than before. *)
Theorem extract_query_failure_leaves_connection_open table s :
  odbc_accepts (conn_str env) = true ->
  sql_result ("SELECT * FROM " +:+ table) = None ->
  ∃ s', extract table s =
          (Raised (DatabaseError ("SELECT * FROM " +:+ table)), s') ∧
        connections s' = S (connections s) ∧
        files s' = files s.
Proof.
  intros Hc Hq. unfold Cli.extract, bind, Cli.connect, Cli.read_sql.
  rewrite echo_run. simpl. rewrite Hc, Hq. by eexists.
Qed.

End Properties.

(** ** The commands on concrete files *)

Example parse_staff : PlainCsv.parse Sample.staff_csv = Some Sample.staff.
Proof. vm_compute. reflexivity. Qed.

Example format_staff :
  PlainCsv.format Sample.staff =
  "id,department,salary" +:+ Sample.nl +:+ "1,Eng,100.0" +:+ Sample.nl +:+
  "2,Eng," +:+ Sample.nl +:+ "2,Eng," +:+ Sample.nl.
Proof. vm_compute. reflexivity. Qed.

Example conn_str_sample :
  conn_str Sample.env =
  "DRIVER={ODBC Driver 17 for SQL Server};SERVER=db.example;DATABASE=hr;UID=etl;PWD=secret".
Proof. vm_compute. reflexivity. Qed.

(** The first scenario of the specification: [transform --drop-null] keeps
    the single complete row. *)
Example transform_drop_null_scenario :
  let s' := snd (Sample.transform "extracted_sql.csv" true [] None
                   (Sample.extracted Sample.staff_csv)) in
  files s' !! "transformed_sql.csv" =
    Some ("id,department,salary" +:+ Sample.nl +:+ "1,Eng,100.0" +:+ Sample.nl) ∧
  stdout s' = [ "🔧 Transforming extracted_sql.csv"; "🧹 Dropped nulls";
                "📁 Saved to transformed_sql.csv" ].
Proof. vm_compute. split; reflexivity. Qed.

(** [transform --filter-dept Eng] without the flag keeps the three rows. *)
Example transform_filter_scenario :
  let s' := snd (Sample.transform "extracted_sql.csv" false [] (Some "Eng")
                   (Sample.extracted Sample.staff_csv)) in
  files s' !! "transformed_sql.csv" = Some (PlainCsv.format Sample.staff) ∧
  stdout s' = [ "🔧 Transforming extracted_sql.csv";
                "🔎 Filtered by department: Eng";
                "📁 Saved to transformed_sql.csv" ].
Proof. vm_compute. split; reflexivity. Qed.

(** [validate] on the same rows reports both issues. *)
Example validate_scenario :
  stdout (snd (Sample.validate "transformed_sql.csv"
                 (Sample.staged (PlainCsv.format Sample.staff)))) =
  [ "🔍 Validating transformed_sql.csv"; "❗ Null values found";
    "❗ Duplicate rows found" ].
Proof. vm_compute. reflexivity. Qed.

(** [validate] on a table without missing values or repeated rows prints
    the success line alone. *)
Example validate_clean_scenario :
  PlainCsv.parse Sample.clean_csv = Some Sample.clean ∧
  stdout (snd (Sample.validate "transformed_sql.csv"
                 (Sample.staged Sample.clean_csv))) =
  [ "🔍 Validating transformed_sql.csv"; "✅ Data passed validation" ].
Proof. vm_compute. split; reflexivity. Qed.

(** [transform --drop-cols salary --drop-cols ghost] *)
Example transform_drop_cols_scenario :
  let s' := snd (Sample.transform "extracted_sql.csv" false ["salary"; "ghost"]
                   None (Sample.extracted Sample.staff_csv)) in
  files s' !! "transformed_sql.csv" =
    Some ("id,department" +:+ Sample.nl +:+ "1,Eng" +:+ Sample.nl +:+
          "2,Eng" +:+ Sample.nl +:+ "2,Eng" +:+ Sample.nl) ∧
  stdout s' = [ "🔧 Transforming extracted_sql.csv";
                "🧹 Dropped columns: salary, ghost";
                "📁 Saved to transformed_sql.csv" ].
Proof. vm_compute. split; reflexivity. Qed.

(** ** The theorems at concrete inputs *)

Lemma staff_well_formed : well_formed Sample.staff.
Proof.
  split.
  - apply (bool_decide_unpack (NoDup (columns Sample.staff))).
    vm_compute. exact I.
  - repeat constructor.
Qed.

Lemma transform_applies_steps_in_order_witness :
  let s := Sample.extracted Sample.staff_csv in
  let s' := snd (Sample.transform "extracted_sql.csv" true ["id"] (Some "Eng") s) in
  files s !! "extracted_sql.csv" = Some Sample.staff_csv ∧
  PlainCsv.parse Sample.staff_csv = Some Sample.staff ∧
  Sample.transform "extracted_sql.csv" true ["id"] (Some "Eng") s
    = (Returned tt, s') ∧
  ∃ out,
    Transformer.filter_department (Some "Eng")
      (Transformer.drop_null_rows true
         (Transformer.drop_columns ["id"] Sample.staff)) = Some out ∧
    files s' !! "transformed_sql.csv" = Some (PlainCsv.format out) ∧
    new_lines s s' =
      (("🔧 Transforming " +:+ "extracted_sql.csv") :: step_lines true ["id"] ++
       filter_lines (Some "Eng") ++ ["📁 Saved to transformed_sql.csv"])%list ∧
    (true = true ->
     ∀ r, r ∈ rows (Transformer.drop_columns ["id"] Sample.staff) ->
          has_null (snd r) = true -> r ∉ rows out).
Proof.
  intros s s'.
  assert (H1 : files s !! "extracted_sql.csv" = Some Sample.staff_csv)
    by (vm_compute; reflexivity).
  assert (H2 : PlainCsv.parse Sample.staff_csv = Some Sample.staff)
    by (vm_compute; reflexivity).
  assert (H3 : Sample.transform "extracted_sql.csv" true ["id"] (Some "Eng") s
               = (Returned tt, s')) by (vm_compute; reflexivity).
  repeat (split; [assumption|]).
  exact (transform_applies_steps_in_order PlainCsv.parse PlainCsv.format
           "extracted_sql.csv" true ["id"] (Some "Eng") s s'
           Sample.staff_csv Sample.staff H1 H2 H3).
Defined.

Lemma transform_missing_department_raises_witness :
  let s := Sample.extracted Sample.pay_csv in
  files s !! "extracted_sql.csv" = Some Sample.pay_csv ∧
  PlainCsv.parse Sample.pay_csv = Some Sample.pay ∧
  ("department" ∉ columns Sample.pay) ∧
  Some "Eng" = Some "Eng" ∧
  "Eng" ≠ "" ∧
  ∃ s', Sample.transform "extracted_sql.csv" false [] (Some "Eng") s =
          (Raised (KeyError "department"), s') ∧
        files s' = files s ∧
        files s' !! "transformed_sql.csv" = files s !! "transformed_sql.csv".
Proof.
  intros s.
  assert (H1 : files s !! "extracted_sql.csv" = Some Sample.pay_csv)
    by (vm_compute; reflexivity).
  assert (H2 : PlainCsv.parse Sample.pay_csv = Some Sample.pay)
    by (vm_compute; reflexivity).
  assert (H3 : "department" ∉ columns Sample.pay).
  { apply (bool_decide_unpack ("department" ∉ columns Sample.pay)).
    vm_compute. exact I. }
  assert (H4 : "Eng" ≠ "") by discriminate.
  repeat (split; [done|]).
  exact (transform_missing_department_raises PlainCsv.parse PlainCsv.format
           "extracted_sql.csv" false [] (Some "Eng") "Eng" s
           Sample.pay_csv Sample.pay H1 H2 H3 eq_refl H4).
Defined.

Lemma transform_output_columns_witness :
  let s := Sample.extracted Sample.staff_csv in
  let s' := snd (Sample.transform "extracted_sql.csv" false ["salary"; "ghost"]
                   None s) in
  files s !! "extracted_sql.csv" = Some Sample.staff_csv ∧
  PlainCsv.parse Sample.staff_csv = Some Sample.staff ∧
  Sample.transform "extracted_sql.csv" false ["salary"; "ghost"] None s
    = (Returned tt, s') ∧
  ∃ out,
    Transformer.run false ["salary"; "ghost"] None Sample.staff = Some out ∧
    files s' !! "transformed_sql.csv" = Some (PlainCsv.format out) ∧
    columns out ⊆ columns Sample.staff ∧
    (list_to_set (columns out) : gset string) =
      list_to_set (columns Sample.staff) ∖
        (list_to_set ["salary"; "ghost"] ∩ list_to_set (columns Sample.staff)).
Proof.
  intros s s'.
  assert (H1 : files s !! "extracted_sql.csv" = Some Sample.staff_csv)
    by (vm_compute; reflexivity).
  assert (H2 : PlainCsv.parse Sample.staff_csv = Some Sample.staff)
    by (vm_compute; reflexivity).
  assert (H3 : Sample.transform "extracted_sql.csv" false ["salary"; "ghost"]
                 None s = (Returned tt, s')) by (vm_compute; reflexivity).
  repeat (split; [assumption|]).
  exact (transform_output_columns PlainCsv.parse PlainCsv.format
           "extracted_sql.csv" false ["salary"; "ghost"] None s s'
           Sample.staff_csv Sample.staff H1 H2 H3).
Defined.

Lemma transform_ignores_missing_drop_cols_witness :
  let s := Sample.extracted Sample.staff_csv in
  let kept := ["id"; "department"] in
  files s !! "extracted_sql.csv" = Some Sample.staff_csv ∧
  PlainCsv.parse Sample.staff_csv = Some Sample.staff ∧
  well_formed Sample.staff ∧
  ["salary"; "ghost"] ≠ [] ∧
  ("transformed_sql.csv" ∉ readonly s) ∧
  columns (Pandas.drop ["salary"; "ghost"] Sample.staff) = kept ∧
  (∀ c, c ∈ kept <-> c ∈ columns Sample.staff ∧ c ∉ ["salary"; "ghost"]) ∧
  Forall2 (row_restricted kept (columns Sample.staff))
    (rows (Pandas.drop ["salary"; "ghost"] Sample.staff)) (rows Sample.staff) ∧
  ∃ s', dropped_columns_msg ["salary"; "ghost"] ∈ new_lines s s' ∧
    ((∃ out survivors,
        Sample.transform "extracted_sql.csv" false ["salary"; "ghost"]
          None s = (Returned tt, s') ∧
        files s' !! "transformed_sql.csv" = Some (PlainCsv.format out) ∧
        columns out = kept ∧
        survivors `sublist_of` rows Sample.staff ∧
        Forall2 (row_restricted kept (columns Sample.staff))
          (rows out) survivors)
     ∨ (Sample.transform "extracted_sql.csv" false ["salary"; "ghost"] None s =
          (Raised (KeyError "department"), s') ∧
        is_Some (Transformer.active_filter None) ∧
        "department" ∉ kept)).
Proof.
  intros s kept.
  assert (H1 : files s !! "extracted_sql.csv" = Some Sample.staff_csv)
    by (vm_compute; reflexivity).
  assert (H2 : PlainCsv.parse Sample.staff_csv = Some Sample.staff)
    by (vm_compute; reflexivity).
  assert (H3 : ["salary"; "ghost"] ≠ ([] : list string)) by discriminate.
  assert (H4 : "transformed_sql.csv" ∉ readonly s).
  { apply (bool_decide_unpack ("transformed_sql.csv" ∉ readonly s)).
    vm_compute. exact I. }
  repeat (split; [assumption || exact staff_well_formed|]).
  exact (transform_ignores_missing_drop_cols PlainCsv.parse PlainCsv.format
           "extracted_sql.csv" false ["salary"; "ghost"] None s
           Sample.staff_csv Sample.staff H1 H2 staff_well_formed H3 H4).
Defined.

Lemma transform_preserves_rows_witness :
  let s := Sample.extracted Sample.staff_csv in
  let s' := snd (Sample.transform "extracted_sql.csv" true ["id"] (Some "Eng") s) in
  files s !! "extracted_sql.csv" = Some Sample.staff_csv ∧
  PlainCsv.parse Sample.staff_csv = Some Sample.staff ∧
  well_formed Sample.staff ∧
  Sample.transform "extracted_sql.csv" true ["id"] (Some "Eng") s
    = (Returned tt, s') ∧
  ∃ out kept,
    Transformer.run true ["id"] (Some "Eng") Sample.staff = Some out ∧
    files s' !! "transformed_sql.csv" = Some (PlainCsv.format out) ∧
    kept `sublist_of` rows Sample.staff ∧
    Forall2 (fun r' r =>
               fst r' = fst r ∧
               length (snd r') = length (columns out) ∧
               ∀ c, c ∈ columns out ->
                    lookup_cell (columns out) (snd r') c =
                    lookup_cell (columns Sample.staff) (snd r) c)
            (rows out) kept.
Proof.
  intros s s'.
  assert (H1 : files s !! "extracted_sql.csv" = Some Sample.staff_csv)
    by (vm_compute; reflexivity).
  assert (H2 : PlainCsv.parse Sample.staff_csv = Some Sample.staff)
    by (vm_compute; reflexivity).
  assert (H3 : Sample.transform "extracted_sql.csv" true ["id"] (Some "Eng") s
               = (Returned tt, s')) by (vm_compute; reflexivity).
  repeat (split; [assumption || exact staff_well_formed|]).
  exact (transform_preserves_rows PlainCsv.parse PlainCsv.format
           "extracted_sql.csv" true ["id"] (Some "Eng") s s'
           Sample.staff_csv Sample.staff H1 H2 staff_well_formed H3).
Defined.

Lemma staff_contains_null : contains_null Sample.staff.
Proof.
  exists (1%nat, [Some (VInt 2); Some (VStr "Eng"); None]). split.
  - right. left.
  - simpl. do 2 right. left.
Qed.

Lemma staff_contains_duplicate : contains_duplicate Sample.staff.
Proof.
  exists 1%nat, 2%nat,
    (1%nat, [Some (VInt 2); Some (VStr "Eng"); None]),
    (2%nat, [Some (VInt 2); Some (VStr "Eng"); None]).
  repeat split; lia.
Qed.

Lemma validate_reports_both_checks_witness :
  let s := Sample.staged Sample.staff_csv in
  files s !! "transformed_sql.csv" = Some Sample.staff_csv ∧
  PlainCsv.parse Sample.staff_csv = Some Sample.staff ∧
  contains_null Sample.staff ∧
  contains_duplicate Sample.staff ∧
  columns Sample.staff ≠ [] ∧
  ∃ s', Sample.validate "transformed_sql.csv" s = (Returned tt, s') ∧
    files s' = files s ∧
    new_lines s s' = [ "🔍 Validating " +:+ "transformed_sql.csv";
                       "❗ Null values found"; "❗ Duplicate rows found" ].
Proof.
  intros s.
  assert (H1 : files s !! "transformed_sql.csv" = Some Sample.staff_csv)
    by (vm_compute; reflexivity).
  assert (H2 : PlainCsv.parse Sample.staff_csv = Some Sample.staff)
    by (vm_compute; reflexivity).
  assert (H3 : columns Sample.staff ≠ []) by discriminate.
  split; [assumption|]. split; [assumption|].
  split; [exact staff_contains_null|].
  split; [exact staff_contains_duplicate|]. split; [assumption|].
  destruct (validate_reports_both_checks PlainCsv.parse
              "transformed_sql.csv" s Sample.staff_csv Sample.staff H1 H2)
    as (s' & Hrun & Hfiles & Hboth & _).
  exists s'. split; [exact Hrun|]. split; [exact Hfiles|].
  exact (Hboth staff_contains_null staff_contains_duplicate H3).
Defined.

Lemma extract_query_failure_leaves_connection_open_witness :
  Sample.odbc_accepts (conn_str Sample.env) = true ∧
  Sample.sql_result ("SELECT * FROM " +:+ "payroll") = None ∧
  ∃ s', Sample.extract "payroll" Sample.idle =
          (Raised (DatabaseError ("SELECT * FROM " +:+ "payroll")), s') ∧
        connections s' = S (connections Sample.idle) ∧
        files s' = files Sample.idle.
Proof.
  assert (H1 : Sample.odbc_accepts (conn_str Sample.env) = true)
    by reflexivity.
  assert (H2 : Sample.sql_result ("SELECT * FROM " +:+ "payroll") = None)
    by (vm_compute; reflexivity).
  split; [assumption|]. split; [assumption|].
  exact (extract_query_failure_leaves_connection_open PlainCsv.format
           Sample.odbc_accepts Sample.sql_result Sample.env
           "payroll" Sample.idle H1 H2).
Defined.

(** On the table the server knows, [extract] closes the connection it
    opened and stages the rows. *)
Example extract_staff :
  let s' := snd (Sample.extract "staff" Sample.idle) in
  connections s' = 0%nat ∧
  files s' !! "extracted_sql.csv" = Some (PlainCsv.format Sample.staff) ∧
  stdout s' = [ "🔍 Extracting data from SQL table: staff";
                "✅ Extracted 3 rows"; "📁 Saved to extracted_sql.csv" ].
Proof. vm_compute. repeat split; reflexivity. Qed.

Lemma transform_messages_witness :
  let s := Sample.extracted Sample.staff_csv in
  let result := Sample.transform "extracted_sql.csv" false ["salary"] (Some "Eng") s in
  let lines := new_lines s (snd result) in
  fst result = Returned tt ∧
  ["salary"] ≠ [] ∧
  dropped_columns_msg ["salary"] ∈ lines ∧
  filtered_msg "Eng" ∈ lines ∧
  mentions is_dropped_columns_msg lines ∧
  mentions is_filtered_msg lines.
Proof.
  intros s result lines.
  assert (H1 : fst result = Returned tt) by (vm_compute; reflexivity).
  assert (H2 : ["salary"] ≠ ([] : list string)) by discriminate.
  assert (H3 : "Eng" ≠ "") by discriminate.
  destruct (transform_messages PlainCsv.parse PlainCsv.format
              "extracted_sql.csv" false ["salary"] (Some "Eng") s)
    as (_ & _ & Hret).
  destruct (Hret H1) as (Hdrop & Hfilter & Hiff1 & Hiff2).
  split; [assumption|]. split; [assumption|].
  split; [exact (Hdrop H2)|].
  split; [exact (Hfilter "Eng" eq_refl H3)|].
  split; [exact (proj2 Hiff1 H2)|].
  exact (proj2 Hiff2 (ex_intro _ "Eng" (conj eq_refl H3))).
Defined.

Lemma transform_empty_filter_is_absent_witness :
  let s := Sample.extracted Sample.pay_csv in
  files s !! "extracted_sql.csv" = Some Sample.pay_csv ∧
  PlainCsv.parse Sample.pay_csv = Some Sample.pay ∧
  ("transformed_sql.csv" ∉ readonly s) ∧
  Sample.transform "extracted_sql.csv" true [] (Some "") s =
  Sample.transform "extracted_sql.csv" true [] None s ∧
  ∃ s', Sample.transform "extracted_sql.csv" true [] (Some "") s
          = (Returned tt, s') ∧
    files s' !! "transformed_sql.csv" =
      Some (PlainCsv.format (Transformer.drop_null_rows true
                               (Transformer.drop_columns [] Sample.pay))) ∧
    ¬ mentions is_filtered_msg (new_lines s s').
Proof.
  intros s.
  assert (H1 : files s !! "extracted_sql.csv" = Some Sample.pay_csv)
    by (vm_compute; reflexivity).
  assert (H2 : PlainCsv.parse Sample.pay_csv = Some Sample.pay)
    by (vm_compute; reflexivity).
  assert (H3 : "transformed_sql.csv" ∉ readonly s).
  { apply (bool_decide_unpack ("transformed_sql.csv" ∉ readonly s)).
    vm_compute. exact I. }
  destruct (transform_empty_filter_is_absent PlainCsv.parse PlainCsv.format
              "extracted_sql.csv" true [] s) as (Heq & Hrun).
  repeat (split; [assumption|]).
  exact (Hrun Sample.pay_csv Sample.pay H1 H2 H3).
Defined.

Lemma load_writes_serialisation_witness :
  let s := Sample.staged Sample.staff_csv in
  files s !! "transformed_sql.csv" = Some Sample.staff_csv ∧
  PlainCsv.parse Sample.staff_csv = Some Sample.staff ∧
  ("loaded_sql.csv" ∉ readonly s) ∧
  ∃ s', Sample.load "loaded_sql.csv" s = (Returned tt, s') ∧
    files s' = <["loaded_sql.csv" := PlainCsv.format Sample.staff]> (files s) ∧
    files s' !! "loaded_sql.csv" = Some (PlainCsv.format Sample.staff) ∧
    (byte_identical_copy "loaded_sql.csv" s s' <->
     PlainCsv.format Sample.staff = Sample.staff_csv).
Proof.
  intros s.
  assert (H1 : files s !! "transformed_sql.csv" = Some Sample.staff_csv)
    by (vm_compute; reflexivity).
  assert (H2 : PlainCsv.parse Sample.staff_csv = Some Sample.staff)
    by (vm_compute; reflexivity).
  assert (H3 : "loaded_sql.csv" ∉ readonly s).
  { apply (bool_decide_unpack ("loaded_sql.csv" ∉ readonly s)).
    vm_compute. exact I. }
  repeat (split; [assumption|]).
  exact (load_writes_serialisation PlainCsv.parse PlainCsv.format
           "loaded_sql.csv" s Sample.staff_csv Sample.staff H1 H2 H3).
Defined.

(** ** Where the code departs from the specification *)

(** C2 as written fails.  [transform --filter-dept Eng] on a table whose
    [code] column is text stages the row with code [007]; [load] then reads
    that column as a number and writes [7]: the loaded file differs from the
    transformed file it was made from. *)
Lemma load_not_byte_identical :
  let s1 := snd (Sample.transform "extracted_sql.csv" false [] (Some "Eng")
                   (Sample.extracted Sample.codes_csv)) in
  let s2 := snd (Sample.load "loaded_sql.csv" s1) in
  fst (Sample.load "loaded_sql.csv" s1) = Returned tt ∧
  files s1 !! "transformed_sql.csv" =
    Some ("code,department" +:+ Sample.nl +:+ "007,Eng" +:+ Sample.nl) ∧
  files s2 !! "loaded_sql.csv" =
    Some ("code,department" +:+ Sample.nl +:+ "7,Eng" +:+ Sample.nl) ∧
  ¬ byte_identical_copy "loaded_sql.csv" s1 s2.
Proof.
  intros s1 s2. unfold byte_identical_copy.
  assert (H1 : files s1 !! "transformed_sql.csv" =
               Some ("code,department" +:+ Sample.nl +:+ "007,Eng" +:+ Sample.nl))
    by (vm_compute; reflexivity).
  assert (H2 : files s2 !! "loaded_sql.csv" =
               Some ("code,department" +:+ Sample.nl +:+ "7,Eng" +:+ Sample.nl))
    by (vm_compute; reflexivity).
  split; [vm_compute; reflexivity|]. split; [exact H1|]. split; [exact H2|].
  rewrite H1, H2. vm_compute. discriminate.
Qed.

(** C8 as written fails.  Given [--filter-dept] with the empty string,
    [transform] returns without printing a department-filter line although
    the option was supplied. *)
Lemma transform_messages_not_by_supplied_option :
  let s := Sample.extracted Sample.staff_csv in
  let result := Sample.transform "extracted_sql.csv" false [] (Some "") s in
  fst result = Returned tt ∧
  new_lines s (snd result) =
    [ "🔧 Transforming extracted_sql.csv"; "📁 Saved to transformed_sql.csv" ] ∧
  ¬ messages_match_options [] (Some "") (new_lines s (snd result)).
Proof.
  intros s result.
  assert (H : new_lines s (snd result) =
              [ "🔧 Transforming extracted_sql.csv";
                "📁 Saved to transformed_sql.csv" ])
    by (vm_compute; reflexivity).
  split; [vm_compute; reflexivity|]. split; [exact H|].
  rewrite H. intros [_ [_ Hsupplied]].
  destruct Hsupplied as (l & Hl & Hm); [by eexists|].
  apply elem_of_cons in Hl as [-> | Hl]; [discriminate|].
  apply list_elem_of_singleton in Hl as ->. discriminate.
Qed.

(** A non-empty department filter that fails on a missing column prints no
    department-filter line either: the line follows the filter. *)
Example transform_filter_line_follows_filter :
  let s := Sample.extracted Sample.pay_csv in
  let result := Sample.transform "extracted_sql.csv" false [] (Some "Eng") s in
  fst result = Raised (KeyError "department") ∧
  new_lines s (snd result) = [ "🔧 Transforming extracted_sql.csv" ].
Proof. vm_compute. split; reflexivity. Qed.

(** ** Further properties of the commands *)

Section Outcomes.

Variable parse_csv : string -> option DataFrame.
Variable format_csv : DataFrame -> string.
Variable odbc_accepts : string -> bool.
Variable sql_result : string -> option DataFrame.
Variable env : gmap string string.
Variable describe : DataFrame -> string.

Local Abbreviation transform := (Cli.transform parse_csv format_csv).
Local Abbreviation load := (Cli.load parse_csv format_csv).
Local Abbreviation validate := (Cli.validate parse_csv).
Local Abbreviation extract :=
  (Cli.extract format_csv odbc_accepts sql_result env).
Local Abbreviation report := (Reporter.report parse_csv describe).

(** *** Closed forms *)

(** Every run of [transform], in closed form. *)
Lemma transform_total input drop_null drop_cols filter_dept s :
  transform input drop_null drop_cols filter_dept s =
    let s0 := printed ["🔧 Transforming " +:+ input] s in
    match files s !! input with
    | None => (Raised (FileNotFoundError input), s0)
    | Some text =>
        match parse_csv text with
        | None => (Raised ParserError, s0)
        | Some df =>
            let s1 := printed (("🔧 Transforming " +:+ input)
                               :: step_lines drop_null drop_cols) s in
            match Transformer.run drop_null drop_cols filter_dept df with
            | None => (Raised (KeyError "department"), s1)
            | Some out =>
                let s2 := printed (filter_lines filter_dept) s1 in
                if bool_decide ("transformed_sql.csv" ∈ readonly s)
                then (Raised (PermissionError "transformed_sql.csv"), s2)
                else (Returned tt,
                      printed ["📁 Saved to transformed_sql.csv"]
                        (written "transformed_sql.csv" (format_csv out) s2))
            end
        end
    end.
Proof.
  destruct (files s !! input) as [text|] eqn:Hf;
    [destruct (parse_csv text) as [df|] eqn:Hp|].
  - by apply (transform_run _ _ _ _ _ _ _ text df).
  - unfold Cli.transform, bind, Cli.read_csv. simpl. by rewrite Hf, Hp.
  - unfold Cli.transform, bind, Cli.read_csv. simpl. by rewrite Hf.
Qed.

(** Every run of [load], in closed form. *)
Lemma load_total target s :
  load target s =
    let s0 := printed ["📦 Loading data to " +:+ target] s in
    match files s !! "transformed_sql.csv" with
    | None => (Raised (FileNotFoundError "transformed_sql.csv"), s0)
    | Some text =>
        match parse_csv text with
        | None => (Raised ParserError, s0)
        | Some df =>
            if bool_decide (target ∈ readonly s)
            then (Raised (PermissionError target), s0)
            else (Returned tt,
                  printed ["✅ Load complete"]
                    (written target (format_csv df) s0))
        end
    end.
Proof.
  unfold Cli.load, bind, Cli.read_csv, Cli.to_csv. simpl.
  destruct (files s !! "transformed_sql.csv") as [text|]; [|done].
  destruct (parse_csv text) as [df|]; [|done]. simpl.
  by case_bool_decide.
Qed.

(** Every run of [extract], in closed form. *)
Lemma extract_total table s :
  extract table s =
    let s0 := printed ["🔍 Extracting data from SQL table: " +:+ table] s in
    let opened :=
      {| files := files s0; readonly := readonly s0;
         connections := S (connections s0); stdout := stdout s0 |} in
    if odbc_accepts (conn_str env) then
      match sql_result ("SELECT * FROM " +:+ table) with
      | None => (Raised (DatabaseError ("SELECT * FROM " +:+ table)), opened)
      | Some df =>
          if bool_decide ("extracted_sql.csv" ∈ readonly s)
          then (Raised (PermissionError "extracted_sql.csv"), s0)
          else (Returned tt,
                printed [ "✅ Extracted " +:+ pretty (Pandas.len df) +:+ " rows";
                          "📁 Saved to extracted_sql.csv" ]
                  (written "extracted_sql.csv" (format_csv df) s0))
      end
    else (Raised OdbcError, s0).
Proof.
  unfold Cli.extract, bind, Cli.connect, Cli.read_sql, Cli.close, Cli.to_csv.
  simpl. destruct (odbc_accepts (conn_str env)); [|done].
  destruct (sql_result ("SELECT * FROM " +:+ table)) as [df|]; [|done]. simpl.
  case_bool_decide; [done|]. unfold printed, written. simpl.
  unfold echo. simpl. by rewrite <- !app_assoc.
Qed.

(** The department filter can be applied to the frame left by the column
    drop exactly when the column is in the input and not among the dropped
    names. *)
Lemma department_kept drop_null drop_cols df :
  "department" ∈ columns (Transformer.drop_null_rows drop_null
                            (Transformer.drop_columns drop_cols df)) <->
  "department" ∈ columns df ∧ "department" ∉ drop_cols.
Proof.
  rewrite drop_null_rows_columns, drop_columns_columns.
  rewrite list_elem_of_In, filter_In, <- list_elem_of_In.
  by rewrite negb_true_iff, bool_decide_eq_false.
Qed.

Lemma run_is_Some drop_null drop_cols filter_dept df :
  is_Some (Transformer.run drop_null drop_cols filter_dept df) <->
  Transformer.active_filter filter_dept = None ∨
  ("department" ∈ columns df ∧ "department" ∉ drop_cols).
Proof.
  rewrite <- department_kept, <- not_eq_None_Some.
  unfold Transformer.run. rewrite filter_department_None.
  destruct (Transformer.active_filter filter_dept) as [dept|].
  - split.
    + intros Hn. right.
      destruct (decide ("department" ∈ columns
                  (Transformer.drop_null_rows drop_null
                     (Transformer.drop_columns drop_cols df)))); [done|].
      exfalso. apply Hn. split; [by eexists | done].
    + intros [? | Hin] [_ Hout]; done.
  - split; [by left | intros _ [[? ?] _]; done].
Qed.

(** *** [transform] *)

(** X1: [transform] returns exactly when its input file exists and parses,
    the department filter is either not applied or finds the [department]
    column among the input columns that are not dropped, and the transformed
    slot can be written. *)
Theorem transform_returns_iff input drop_null drop_cols filter_dept s :
  fst (transform input drop_null drop_cols filter_dept s) = Returned tt <->
  ∃ text df,
    files s !! input = Some text ∧ parse_csv text = Some df ∧
    (Transformer.active_filter filter_dept = None ∨
     ("department" ∈ columns df ∧ "department" ∉ drop_cols)) ∧
    ("transformed_sql.csv" ∉ readonly s).
Proof.
  rewrite transform_total. cbv zeta.
  destruct (files s !! input) as [text|];
    [|split; [done | by intros (? & ? & ? & _)]].
  destruct (parse_csv text) as [df|] eqn:Hp;
    [|split; [done | intros (? & ? & [= <-] & ? & _); congruence]].
  pose proof (run_is_Some drop_null drop_cols filter_dept df) as Hrun.
  destruct (Transformer.run drop_null drop_cols filter_dept df) as [out|].
  - case_bool_decide; simpl.
    + split; [done | by intros (? & ? & _ & _ & _ & ?)].
    + split; [|done]. intros _. exists text, df.
      repeat split; try done. apply Hrun. by eexists.
  - simpl. split; [done|].
    intros (? & ? & [= <-] & Hp' & Hdept & _).
    rewrite Hp in Hp'. injection Hp' as <-.
    apply Hrun in Hdept. by destruct Hdept.
Qed.

(** X2: [transform] raises [KeyError] in one case only, and then for
    [department]: the input file was read and parsed, the department filter
    is applied, and [department] is not an input column or is one of the
    dropped names. *)
Theorem transform_key_error_iff
    input drop_null drop_cols filter_dept s key :
  fst (transform input drop_null drop_cols filter_dept s) =
    Raised (KeyError key) <->
  key = "department" ∧
  is_Some (Transformer.active_filter filter_dept) ∧
  ∃ text df, files s !! input = Some text ∧ parse_csv text = Some df ∧
             ("department" ∉ columns df ∨ "department" ∈ drop_cols).
Proof.
  rewrite transform_total. cbv zeta.
  destruct (files s !! input) as [text|];
    [|split; [done | by intros (_ & _ & ? & ? & ? & _)]].
  destruct (parse_csv text) as [df|] eqn:Hp;
    [|split; [done | intros (_ & _ & ? & ? & [= <-] & ? & _); congruence]].
  destruct (Transformer.run drop_null drop_cols filter_dept df) as [out|] eqn:Hrun.
  - assert (Hsome : is_Some (Transformer.run drop_null drop_cols filter_dept df))
      by (by eexists).
    apply run_is_Some in Hsome.
    case_bool_decide; simpl.
    all: split; [done|].
    all: intros (_ & [dept Hact] & ? & ? & [= <-] & Hp' & Hmiss).
    all: rewrite Hp in Hp'; injection Hp' as <-.
    all: destruct Hsome as [Hnone | [Hin Hnot]]; [congruence|].
    all: by destruct Hmiss.
  - simpl. apply filter_department_None in Hrun as [Hact Hmiss].
    rewrite department_kept in Hmiss. split.
    + intros [= <-]. split; [done|]. split; [done|].
      exists text, df. repeat split; try done.
      destruct (decide ("department" ∈ drop_cols)); [by right | left].
      intros Hin. by apply Hmiss.
    + by intros (-> & _).
Qed.

(** X3: dropping the [department] column and filtering by department in one
    invocation fails: the filter runs after the drop, so [transform] raises
    [KeyError] on every readable input, although the input has the column,
    and writes nothing. *)
Theorem transform_filter_after_drop_raises
    input drop_null drop_cols filter_dept dept s text df :
  files s !! input = Some text -> parse_csv text = Some df ->
  "department" ∈ drop_cols ->
  filter_dept = Some dept -> dept ≠ "" ->
  ∃ s', transform input drop_null drop_cols filter_dept s =
          (Raised (KeyError "department"), s') ∧
        files s' = files s ∧
        dropped_columns_msg drop_cols ∈ new_lines s s'.
Proof.
  intros Hf Hp Hin Hfd Hne. rewrite transform_total. cbv zeta.
  rewrite Hf, Hp.
  assert (Transformer.run drop_null drop_cols filter_dept df = None) as ->.
  { apply filter_department_None. split.
    - rewrite (active_filter_Some _ _ Hfd Hne). by eexists.
    - rewrite department_kept. by intros [_ ?]. }
  eexists. split; [reflexivity|]. split; [done|].
  rewrite new_lines_printed. right. apply step_lines_dropped.
  intros ->. by apply not_elem_of_nil in Hin.
Qed.

(** X4: whatever its outcome, [transform] leaves every file other than the
    transformed slot as it was, and on an error leaves the transformed slot
    as it was too; it does not touch the write protections or the
    connections, and it only adds lines to the output. *)
Theorem transform_writes_only_its_slot
    input drop_null drop_cols filter_dept s :
  let result := transform input drop_null drop_cols filter_dept s in
  let s' := snd result in
  (∀ path, path ≠ "transformed_sql.csv" ->
           files s' !! path = files s !! path) ∧
  (fst result ≠ Returned tt -> files s' = files s) ∧
  readonly s' = readonly s ∧
  connections s' = connections s ∧
  stdout s `prefix_of` stdout s'.
Proof.
  intros result s'. subst s' result. rewrite transform_total. cbv zeta.
  destruct (files s !! input) as [text|];
    [destruct (parse_csv text) as [df|];
     [destruct (Transformer.run drop_null drop_cols filter_dept df) as [out|];
      [case_bool_decide|]|]|]; simpl.
  all: repeat split; try done.
  all: try (rewrite <- ?app_assoc; by eexists).
  intros path Hne. by rewrite lookup_insert_ne.
Qed.

(** X5: run again with the same arguments, [transform] has the same outcome
    and leaves the same files, provided it does not read from the slot it
    writes. *)
Theorem transform_rerun_same_files
    input drop_null drop_cols filter_dept s :
  input ≠ "transformed_sql.csv" ->
  let first := transform input drop_null drop_cols filter_dept s in
  let second := transform input drop_null drop_cols filter_dept (snd first) in
  fst second = fst first ∧ files (snd second) = files (snd first).
Proof.
  intros Hne first second. subst second first.
  rewrite (transform_total input drop_null drop_cols filter_dept s). cbv zeta.
  destruct (files s !! input) as [text|] eqn:Hf;
    [destruct (parse_csv text) as [df|] eqn:Hp;
     [destruct (Transformer.run drop_null drop_cols filter_dept df)
        as [out|] eqn:Hrun; [case_bool_decide|]|]|]; simpl.
  all: rewrite transform_total; cbv zeta; simpl.
  all: rewrite ?lookup_insert_ne by done.
  all: rewrite Hf, ?Hp, ?Hrun; simpl.
  all: try (rewrite bool_decide_eq_true_2 by done).
  all: try (rewrite bool_decide_eq_false_2 by done).
  all: simpl; split; try done.
  by rewrite insert_insert_eq.
Qed.

Lemma elem_of_select_by {A} (f : A -> bool) (l : list A) x :
  x ∈ Pandas.select (f <$> l) l <-> x ∈ l ∧ f x = true.
Proof. by rewrite <- filter_select, list_elem_of_In, filter_In, <- list_elem_of_In. Qed.

Lemma forallb_notnull (r : row) :
  forallb Pandas.notnull r = negb (has_null r).
Proof.
  unfold has_null. induction r as [|c r IH]; simpl; [done|].
  rewrite IH. unfold Pandas.notnull. by destruct (Pandas.isnull c).
Qed.

Lemma eq_str_true dept (r : row) k :
  Pandas.eq_str dept (Pandas.at_loc k r) = true <->
  r !! k = Some (Some (VStr dept)).
Proof.
  unfold Pandas.at_loc. destruct (r !! k) as [[[z|z|t]|]|]; simpl;
    try (split; [done | congruence]).
  rewrite String.eqb_eq. split; congruence.
Qed.

Lemma drop_null_rows_elem drop_null df r :
  r ∈ rows (Transformer.drop_null_rows drop_null df) <->
  r ∈ rows df ∧ (drop_null = true -> has_null (snd r) = false).
Proof.
  destruct drop_null; simpl.
  - rewrite list_elem_of_In, filter_In, <- list_elem_of_In, forallb_notnull.
    rewrite negb_true_iff. split; intros [? H]; split; auto.
  - split; [by intros ? | by intros [? _]].
Qed.

Lemma filter_department_elem filter_dept df out r :
  Transformer.filter_department filter_dept df = Some out ->
  r ∈ rows out <->
  r ∈ rows df ∧
  ∀ dept, Transformer.active_filter filter_dept = Some dept ->
          lookup_cell (columns df) (snd r) "department" =
          Some (Some (VStr dept)).
Proof.
  unfold Transformer.filter_department, Pandas.getitem, lookup_cell.
  destruct (Transformer.active_filter filter_dept) as [dept|].
  - destruct (Pandas.get_loc "department" (columns df)) as [k|]; simpl; [|done].
    intros [= <-]. simpl. rewrite <- list_fmap_compose.
    rewrite elem_of_select_by. simpl. rewrite eq_str_true. split.
    + intros [? ?]. split; [done|]. by intros ? [= <-].
    + intros [? H]. split; [done|]. by apply H.
  - intros [= <-]. split; [by intros ? | by intros [? _]].
Qed.

(** X6: the rows [transform] writes are exactly the rows left by the column
    drop that have no missing value (when [--drop-null] is given) and whose
    [department] cell is exactly the text asked for (when the filter is
    applied); a number or a missing value in that cell never matches. *)
Theorem transform_surviving_rows
    input drop_null drop_cols filter_dept s s' text df :
  files s !! input = Some text -> parse_csv text = Some df ->
  transform input drop_null drop_cols filter_dept s = (Returned tt, s') ->
  ∃ out,
    files s' !! "transformed_sql.csv" = Some (format_csv out) ∧
    ∀ r, r ∈ rows out <->
         r ∈ rows (Transformer.drop_columns drop_cols df) ∧
         (drop_null = true -> has_null (snd r) = false) ∧
         (∀ dept, Transformer.active_filter filter_dept = Some dept ->
                  lookup_cell (columns out) (snd r) "department" =
                  Some (Some (VStr dept))).
Proof.
  intros Hf Hp Hrun.
  destruct (transform_returned_file _ _ _ _ _ _ _ _ _ _ Hf Hp Hrun)
    as (out & Hout & Hfile & _).
  exists out. split; [done|]. intros r.
  unfold Transformer.run in Hout.
  rewrite (filter_department_elem _ _ _ r Hout), drop_null_rows_elem.
  rewrite (filter_department_columns _ _ _ Hout).
  split; [intros [[? ?] ?] | intros (? & ? & ?)]; done.
Qed.

(** *** [load] *)

(** X7: [load] returns exactly when the transformed file exists and parses
    and the target can be written.  Otherwise it raises and changes no file:
    in particular it does not create the target when the transformed file is
    missing. *)
Theorem load_returns_iff target s :
  let result := load target s in
  (fst result = Returned tt <->
   ∃ staged df, files s !! "transformed_sql.csv" = Some staged ∧
                parse_csv staged = Some df ∧ target ∉ readonly s) ∧
  (fst result ≠ Returned tt -> files (snd result) = files s) ∧
  (files s !! "transformed_sql.csv" = None ->
   fst result = Raised (FileNotFoundError "transformed_sql.csv") ∧
   files (snd result) !! target = files s !! target).
Proof.
  intros result. subst result. rewrite load_total. cbv zeta.
  destruct (files s !! "transformed_sql.csv") as [staged|];
    [destruct (parse_csv staged) as [df|] eqn:Hp; [case_bool_decide|]|]; simpl.
  - split; [split; [done | by intros (? & ? & _ & _ & ?)]|]. done.
  - split; [split; [by eauto | done]|]. done.
  - split; [split; [done | intros (? & ? & [= <-] & ? & _); congruence]|]. done.
  - split; [split; [done | by intros (? & ? & ? & _)]|]. done.
Qed.

(** X8: whatever its outcome, [load] leaves every file other than the target
    as it was, the transformed file included when it is not the target. *)
Theorem load_writes_only_target target s :
  let s' := snd (load target s) in
  (∀ path, path ≠ target -> files s' !! path = files s !! path) ∧
  readonly s' = readonly s ∧
  connections s' = connections s ∧
  stdout s `prefix_of` stdout s'.
Proof.
  intros s'. subst s'. rewrite load_total. cbv zeta.
  destruct (files s !! "transformed_sql.csv") as [staged|];
    [destruct (parse_csv staged) as [df|]; [case_bool_decide|]|]; simpl.
  all: repeat split; try done.
  all: try (rewrite <- ?app_assoc; by eexists).
  intros path Hne. by rewrite lookup_insert_ne.
Qed.

(** *** Reading back what was written *)

Lemma existsb_fmap {A B} (g : A -> B) (p : B -> bool) (l : list A) :
  existsb p (g <$> l) = existsb (fun x => p (g x)) l.
Proof. induction l as [|x l IH]; csimpl; [done|]. by rewrite IH. Qed.

Lemma filter_fmap {A B} (g : A -> B) (p : B -> bool) (l : list A) :
  List.filter p (g <$> l) = g <$> List.filter (fun x => p (g x)) l.
Proof.
  induction l as [|x l IH]; csimpl; [done|].
  destruct (p (g x)); csimpl; by rewrite IH.
Qed.

Lemma fmap_snd_cut {A B C} (h : B -> C) (l : list (A * B)) :
  snd <$> ((fun r => (fst r, h (snd r))) <$> l) = h <$> (snd <$> l).
Proof. induction l as [|x l IH]; csimpl; [done|]. by rewrite IH. Qed.

Lemma fmap_by_snd {A B C} (h : B -> C) (l : list (A * B)) :
  (fun r => h (snd r)) <$> l = h <$> (snd <$> l).
Proof. induction l as [|x l IH]; csimpl; [done|]. by rewrite IH. Qed.

Lemma any_null_same_values a b :
  same_values a b -> Pandas.any_null a = Pandas.any_null b.
Proof.
  intros [_ Hrows]. unfold Pandas.any_null.
  transitivity (existsb (existsb Pandas.isnull) (snd <$> rows a));
    [symmetry; apply existsb_fmap|].
  transitivity (existsb (existsb Pandas.isnull) (snd <$> rows b));
    [f_equal; exact Hrows | apply existsb_fmap].
Qed.

Lemma drop_columns_same drop_cols a b :
  same_values a b ->
  same_values (Transformer.drop_columns drop_cols a)
              (Transformer.drop_columns drop_cols b).
Proof.
  intros [Hcols Hrows]. destruct drop_cols as [|n ns]; [done|].
  unfold Transformer.drop_columns, Pandas.drop, same_values. simpl.
  rewrite Hcols. split; [done|].
  rewrite !fmap_snd_cut. f_equal. exact Hrows.
Qed.

Lemma drop_null_rows_same drop_null a b :
  same_values a b ->
  same_values (Transformer.drop_null_rows drop_null a)
              (Transformer.drop_null_rows drop_null b).
Proof.
  intros [Hcols Hrows]. destruct drop_null; [|done].
  unfold Transformer.drop_null_rows, Pandas.dropna, same_values. simpl.
  split; [done|].
  transitivity (List.filter (forallb Pandas.notnull) (snd <$> rows a));
    [symmetry; apply filter_fmap|].
  transitivity (List.filter (forallb Pandas.notnull) (snd <$> rows b));
    [f_equal; exact Hrows | apply filter_fmap].
Qed.

Lemma filter_department_same filter_dept a b a' :
  same_values a b ->
  Transformer.filter_department filter_dept a = Some a' ->
  ∃ b', Transformer.filter_department filter_dept b = Some b' ∧
        same_values a' b'.
Proof.
  intros [Hcols Hrows]. unfold Transformer.filter_department, Pandas.getitem.
  destruct (Transformer.active_filter filter_dept) as [dept|];
    [|intros [= <-]; by eexists].
  rewrite <- Hcols.
  destruct (Pandas.get_loc "department" (columns a)) as [k|]; simpl; [|done].
  intros [= <-]. eexists. split; [reflexivity|].
  unfold Pandas.getitem_mask, same_values. simpl. split; [done|].
  rewrite <- !select_fmap, !(fmap_by_snd (Pandas.at_loc k)).
  assert (Heq : snd <$> rows a = snd <$> rows b) by exact Hrows.
  by rewrite Heq.
Qed.

Lemma run_same_values drop_null drop_cols filter_dept a b a' :
  same_values a b ->
  Transformer.run drop_null drop_cols filter_dept a = Some a' ->
  ∃ b', Transformer.run drop_null drop_cols filter_dept b = Some b' ∧
        same_values a' b'.
Proof.
  intros Hsame. unfold Transformer.run.
  apply filter_department_same, drop_null_rows_same, drop_columns_same, Hsame.
Qed.

(** X9: [load] after a successful [transform] leaves at the target the very
    bytes of the transformed file, for a writer that does not write the row
    labels and a reader that gives back the columns and cells that were
    written (under any row labels). *)
Theorem load_after_transform_copies
    input drop_null drop_cols filter_dept target s s1 text df out back :
  files s !! input = Some text -> parse_csv text = Some df ->
  transform input drop_null drop_cols filter_dept s = (Returned tt, s1) ->
  Transformer.run drop_null drop_cols filter_dept df = Some out ->
  ignores_labels format_csv ->
  parse_csv (format_csv out) = Some back -> same_values out back ->
  target ∉ readonly s ->
  ∃ s2, load target s1 = (Returned tt, s2) ∧
        files s2 !! target = files s1 !! "transformed_sql.csv" ∧
        files s2 !! target = Some (format_csv out).
Proof.
  intros Hf Hp Hrun Hout Hwriter Hback Hsame Hw.
  destruct (transform_returned _ _ _ _ _ _ _ _ _ _ Hf Hp Hrun)
    as (out' & Hout' & _ & ->).
  rewrite Hout in Hout'. injection Hout' as <-.
  rewrite load_total. cbv zeta. simpl.
  rewrite lookup_insert_eq, Hback.
  rewrite bool_decide_eq_false_2 by done.
  eexists. split; [reflexivity|]. simpl.
  rewrite !lookup_insert_eq. by rewrite (Hwriter out back Hsame).
Qed.

(** *** [validate] and [report] *)

(** Every run of [validate], in closed form. *)
Lemma validate_total input s :
  validate input s =
    let s0 := printed ["🔍 Validating " +:+ input] s in
    match files s !! input with
    | None => (Raised (FileNotFoundError input), s0)
    | Some text =>
        match parse_csv text with
        | None => (Raised ParserError, s0)
        | Some df =>
            (Returned tt,
             printed (("🔍 Validating " +:+ input) :: validation_lines df) s)
        end
    end.
Proof.
  destruct (files s !! input) as [text|] eqn:Hf;
    [destruct (parse_csv text) as [df|] eqn:Hp|].
  - by apply (validate_run _ _ _ text df).
  - unfold Cli.validate, bind, Cli.read_csv. simpl. by rewrite Hf, Hp.
  - unfold Cli.validate, bind, Cli.read_csv. simpl. by rewrite Hf.
Qed.

(** X10: [validate] only reads.  Whatever its outcome it leaves every file,
    the write protections and the connections as they were, and it returns
    exactly when its input file exists and parses. *)
Theorem validate_only_reads input s :
  let result := validate input s in
  files (snd result) = files s ∧
  readonly (snd result) = readonly s ∧
  connections (snd result) = connections s ∧
  (fst result = Returned tt <->
   ∃ text df, files s !! input = Some text ∧ parse_csv text = Some df).
Proof.
  intros result. subst result. rewrite validate_total. cbv zeta.
  destruct (files s !! input) as [text|];
    [destruct (parse_csv text) as [df|] eqn:Hp|]; simpl.
  - repeat split; try done. by eauto.
  - repeat split; try done. intros (? & ? & [= <-] & ?). congruence.
  - repeat split; try done. by intros (? & ? & ? & _).
Qed.

Lemma no_null_after_drop drop_cols filter_dept df out :
  Transformer.run true drop_cols filter_dept df = Some out ->
  Pandas.any_null out = false.
Proof.
  intros Hout. apply not_true_is_false. intros Hany.
  apply existsb_exists in Hany as (r & Hr & Hnull).
  apply list_elem_of_In in Hr.
  apply filter_department_rows in Hout.
  pose proof (elem_of_sublist _ _ _ Hr Hout) as Hin.
  apply dropna_no_null in Hin. unfold has_null in Hin.
  simpl in Hnull. pose proof (eq_trans (eq_sym Hnull) Hin). discriminate.
Qed.

(** X11: a file written by [transform --drop-null] passes the null check:
    for a reader that gives back the columns and cells that were written
    (under any row labels), [validate] on the transformed slot returns
    without the null-values line. *)
Theorem validate_after_drop_null
    input drop_cols filter_dept s s1 text df out back :
  files s !! input = Some text -> parse_csv text = Some df ->
  transform input true drop_cols filter_dept s = (Returned tt, s1) ->
  Transformer.run true drop_cols filter_dept df = Some out ->
  parse_csv (format_csv out) = Some back -> same_values out back ->
  ∃ s2, validate "transformed_sql.csv" s1 = (Returned tt, s2) ∧
        "❗ Null values found" ∉ new_lines s1 s2.
Proof.
  intros Hf Hp Hrun Hout Hback Hsame.
  destruct (transform_returned _ _ _ _ _ _ _ _ _ _ Hf Hp Hrun)
    as (out' & Hout' & _ & ->).
  rewrite Hout in Hout'. injection Hout' as <-.
  rewrite validate_total. cbv zeta. simpl.
  rewrite lookup_insert_eq, Hback.
  eexists. split; [reflexivity|].
  rewrite new_lines_printed. unfold validation_lines.
  rewrite <- (any_null_same_values _ _ Hsame).
  rewrite (no_null_after_drop _ _ _ _ Hout).
  intros Hin. apply elem_of_cons in Hin as [Heq | Hin]; [discriminate|].
  destruct (Pandas.any (Pandas.duplicated back));
    apply list_elem_of_singleton in Hin; discriminate.
Qed.


(** *** [extract] *)

(** X13: when the server accepts the connection, answers the query and the
    extracted slot can be written, [extract] returns having replaced the
    extracted slot by the serialisation of the result set, closed the
    connection it opened, and printed the number of rows of the result. *)
Theorem extract_success table s df :
  odbc_accepts (conn_str env) = true ->
  sql_result ("SELECT * FROM " +:+ table) = Some df ->
  "extracted_sql.csv" ∉ readonly s ->
  ∃ s', extract table s = (Returned tt, s') ∧
    files s' = <["extracted_sql.csv" := format_csv df]> (files s) ∧
    connections s' = connections s ∧
    new_lines s s' =
      [ "🔍 Extracting data from SQL table: " +:+ table;
        "✅ Extracted " +:+ pretty (length (rows df)) +:+ " rows";
        "📁 Saved to extracted_sql.csv" ].
Proof.
  intros Hc Hq Hw. rewrite extract_total. cbv zeta. rewrite Hc, Hq.
  rewrite bool_decide_eq_false_2 by done.
  eexists. split; [reflexivity|]. simpl. repeat split.
  unfold new_lines. simpl. rewrite <- app_assoc. by rewrite drop_app_length.
Qed.

(** X14: [extract] returns exactly when the connection is accepted, the
    query is answered and the extracted slot can be written.  On every error
    it leaves all files as they were, and the connection count differs from
    the one at the start exactly when the connection was accepted and the
    query rejected. *)
Theorem extract_outcomes table s :
  let result := extract table s in
  (fst result = Returned tt <->
   odbc_accepts (conn_str env) = true ∧
   is_Some (sql_result ("SELECT * FROM " +:+ table)) ∧
   "extracted_sql.csv" ∉ readonly s) ∧
  (fst result ≠ Returned tt -> files (snd result) = files s) ∧
  (connections (snd result) ≠ connections s <->
   odbc_accepts (conn_str env) = true ∧
   sql_result ("SELECT * FROM " +:+ table) = None).
Proof.
  intros result. subst result. rewrite extract_total. cbv zeta.
  destruct (odbc_accepts (conn_str env));
    [destruct (sql_result ("SELECT * FROM " +:+ table)) as [df|];
     [case_bool_decide|]|]; simpl.
  - repeat split; try done; try (by intros (_ & _ & ?)); by intros [_ ?].
  - repeat split; try done; try (by eexists); by intros [_ ?].
  - repeat split; try done; try lia. by intros (_ & [? ?] & _).
  - repeat split; try done; try (by intros [? _]).
Qed.

(** *** The commands in sequence *)

(** X15: the staging slots line up.  When the server answers the query, the
    reader gives back the frame that was written and the three slots can be
    written, [extract], then [transform] with its default input and no
    option, then [load] all return, the target holds the serialisation of
    the result set, and no connection is left open. *)
Theorem pipeline_end_to_end table target s df :
  odbc_accepts (conn_str env) = true ->
  sql_result ("SELECT * FROM " +:+ table) = Some df ->
  parse_csv (format_csv df) = Some df ->
  "extracted_sql.csv" ∉ readonly s ->
  "transformed_sql.csv" ∉ readonly s ->
  target ∉ readonly s ->
  ∃ s1 s2 s3,
    extract table s = (Returned tt, s1) ∧
    transform "extracted_sql.csv" false [] None s1 = (Returned tt, s2) ∧
    load target s2 = (Returned tt, s3) ∧
    files s3 !! target = Some (format_csv df) ∧
    connections s3 = connections s.
Proof.
  intros Hc Hq Hround Hw1 Hw2 Hw3.
  rewrite extract_total. cbv zeta. rewrite Hc, Hq.
  rewrite bool_decide_eq_false_2 by done.
  eexists. eexists. eexists. split; [reflexivity|].
  rewrite transform_total. cbv zeta. simpl.
  rewrite lookup_insert_eq, Hround. simpl.
  rewrite bool_decide_eq_false_2 by done.
  split; [reflexivity|].
  rewrite load_total. cbv zeta. simpl.
  rewrite lookup_insert_eq, Hround.
  rewrite bool_decide_eq_false_2 by done.
  split; [reflexivity|]. simpl. split; [apply lookup_insert_eq | done].
Qed.

(** *** [transform] on its own output *)

Lemma select_kept {A B} (f : A -> bool) (l : list A) (r : list B) :
  (∀ x, x ∈ l -> f x = true) -> length r = length l ->
  Pandas.select (f <$> l) r = r.
Proof.
  revert r. induction l as [|x l IH]; intros [|y r] Hall Hlen; simpl in *;
    try done.
  injection Hlen as Hlen. rewrite (Hall x) by left.
  f_equal. apply IH; [|done]. intros z Hz. apply Hall. by right.
Qed.

Lemma filter_filter_same {A} (f : A -> bool) (l : list A) :
  List.filter f (List.filter f l) = List.filter f l.
Proof.
  induction l as [|x l IH]; simpl; [done|].
  destruct (f x) eqn:E; simpl; [rewrite E|]; by rewrite IH.
Qed.

Lemma run_row_lengths drop_null drop_cols filter_dept df out :
  well_formed df ->
  Transformer.run drop_null drop_cols filter_dept df = Some out ->
  Forall (fun r => length (snd r) = length (columns out)) (rows out).
Proof.
  intros Hwf Hout.
  destruct (run_rows _ _ _ _ _ Hout) as (kept & Hsub & -> & ->).
  apply Forall_forall. intros r' Hr'.
  apply list_elem_of_fmap in Hr' as (r & -> & Hr).
  pose proof (elem_of_sublist _ _ _ Hr Hsub) as Hin.
  by destruct (restrict_row_spec drop_cols df r Hwf Hin) as (_ & ? & _).
Qed.

Lemma drop_columns_fixed drop_cols out :
  Forall (fun r => length (snd r) = length (columns out)) (rows out) ->
  (∀ c, c ∈ columns out -> c ∉ drop_cols) ->
  Transformer.drop_columns drop_cols out = out.
Proof.
  intros Hlen Hnone. destruct drop_cols as [|n ns]; [done|].
  destruct out as [cols rs]. unfold Transformer.drop_columns, Pandas.drop.
  simpl in *. unfold Pandas.keep_mask.
  assert (Hkeep : ∀ c, c ∈ cols -> negb (bool_decide (c ∈ n :: ns)) = true).
  { intros c Hc. apply negb_true_iff, bool_decide_eq_false. by apply Hnone. }
  f_equal.
  - by apply select_kept.
  - rewrite <- (list_fmap_id rs) at 2. apply Forall_fmap_ext_1.
    eapply Forall_impl; [exact Hlen|]. intros [i r] Hr. simpl in *.
    f_equal. by apply select_kept.
Qed.

Lemma drop_null_rows_fixed drop_null out :
  (drop_null = true -> ∀ r, r ∈ rows out -> has_null (snd r) = false) ->
  Transformer.drop_null_rows drop_null out = out.
Proof.
  intros Hclean. destruct drop_null; [|done].
  destruct out as [cols rs]. unfold Transformer.drop_null_rows, Pandas.dropna.
  simpl in *. f_equal. apply forallb_filter_id, forallb_forall.
  intros r Hr. rewrite forallb_notnull. apply negb_true_iff.
  apply (Hclean eq_refl). by apply list_elem_of_In.
Qed.

Lemma filter_department_fixed filter_dept df out :
  Transformer.filter_department filter_dept df = Some out ->
  Transformer.filter_department filter_dept out = Some out.
Proof.
  unfold Transformer.filter_department, Pandas.getitem.
  destruct (Transformer.active_filter filter_dept) as [dept|]; [|done].
  destruct (Pandas.get_loc "department" (columns df)) as [k|] eqn:Hk;
    simpl; [|done].
  intros [= <-]. simpl. rewrite Hk. simpl. f_equal.
  unfold Pandas.getitem_mask. simpl. f_equal.
  rewrite <- !list_fmap_compose, <- !filter_select.
  apply filter_filter_same.
Qed.

Lemma run_fixed drop_null drop_cols filter_dept df out :
  well_formed df ->
  Transformer.run drop_null drop_cols filter_dept df = Some out ->
  Transformer.run drop_null drop_cols filter_dept out = Some out.
Proof.
  intros Hwf Hout. unfold Transformer.run.
  rewrite drop_columns_fixed.
  - rewrite drop_null_rows_fixed.
    + by apply (filter_department_fixed _ _ _ Hout).
    + intros -> r Hr. apply filter_department_rows in Hout.
      pose proof (elem_of_sublist _ _ _ Hr Hout) as Hin.
      by apply dropna_no_null in Hin.
  - by apply (run_row_lengths _ _ _ _ _ Hwf Hout).
  - intros c Hc. rewrite (run_columns _ _ _ _ _ Hout) in Hc.
    rewrite list_elem_of_In, filter_In in Hc. destruct Hc as [_ Hc].
    by rewrite negb_true_iff, bool_decide_eq_false in Hc.
Qed.

(** X16: [transform] applied with the same options to the file it has just
    written changes nothing.  For a well-formed input dataset, a writer that
    does not write the row labels and a reader that gives back the columns
    and cells that were written (under any row labels), the second run,
    reading from the transformed slot, returns and leaves every file as the
    first run left it. *)
Theorem transform_in_place_stable
    input drop_null drop_cols filter_dept s s1 text df out back :
  files s !! input = Some text -> parse_csv text = Some df ->
  well_formed df ->
  transform input drop_null drop_cols filter_dept s = (Returned tt, s1) ->
  Transformer.run drop_null drop_cols filter_dept df = Some out ->
  ignores_labels format_csv ->
  parse_csv (format_csv out) = Some back -> same_values out back ->
  ∃ s2, transform "transformed_sql.csv" drop_null drop_cols filter_dept s1 =
          (Returned tt, s2) ∧
        files s2 = files s1.
Proof.
  intros Hf Hp Hwf Hrun Hout Hwriter Hback Hsame.
  destruct (transform_returned _ _ _ _ _ _ _ _ _ _ Hf Hp Hrun)
    as (out' & Hout' & Hw & ->).
  rewrite Hout in Hout'. injection Hout' as <-.
  destruct (run_same_values _ _ _ _ _ _ Hsame (run_fixed _ _ _ _ _ Hwf Hout))
    as (again & Hagain & Hsame').
  rewrite transform_total. cbv zeta. simpl.
  rewrite lookup_insert_eq, Hback, Hagain.
  rewrite bool_decide_eq_false_2 by done.
  eexists. split; [reflexivity|]. simpl.
  rewrite <- (Hwriter out again Hsame'). by rewrite insert_insert_eq.
Qed.

End Outcomes.

(** ** The further properties at concrete inputs *)

(** [transform --filter-dept Eng] on a table without the column: the one
    case of [KeyError]. *)
Example transform_key_error_pay :
  fst (Sample.transform "extracted_sql.csv" false [] (Some "Eng")
         (Sample.extracted Sample.pay_csv)) = Raised (KeyError "department").
Proof. vm_compute. reflexivity. Qed.

(** [report] on the staged table prints its heading and the table. *)
Example report_staff :
  Sample.report "transformed_sql.csv" (Sample.staged Sample.staff_csv) =
  (Returned tt,
   printed [ "📊 Generating report for transformed_sql.csv"; "count 3" ]
     (Sample.staged Sample.staff_csv)).
Proof. vm_compute. reflexivity. Qed.

(** With the transformed slot protected, [transform] raises after its
    lines and leaves the files as they were. *)
Example transform_protected_slot :
  let s := Sample.protected Sample.staff_csv in
  let result := Sample.transform "extracted_sql.csv" true [] None s in
  fst result = Raised (PermissionError "transformed_sql.csv") ∧
  files (snd result) = files s ∧
  new_lines s (snd result) =
    [ "🔧 Transforming extracted_sql.csv"; "🧹 Dropped nulls" ].
Proof. vm_compute. repeat split; reflexivity. Qed.

Lemma transform_filter_after_drop_raises_witness :
  let s := Sample.extracted Sample.staff_csv in
  files s !! "extracted_sql.csv" = Some Sample.staff_csv ∧
  PlainCsv.parse Sample.staff_csv = Some Sample.staff ∧
  "department" ∈ ["department"] ∧
  "Eng" ≠ "" ∧
  ∃ s', Sample.transform "extracted_sql.csv" false ["department"] (Some "Eng") s
          = (Raised (KeyError "department"), s') ∧
        files s' = files s ∧
        dropped_columns_msg ["department"] ∈ new_lines s s'.
Proof.
  intros s.
  assert (H1 : files s !! "extracted_sql.csv" = Some Sample.staff_csv)
    by (vm_compute; reflexivity).
  assert (H2 : PlainCsv.parse Sample.staff_csv = Some Sample.staff)
    by (vm_compute; reflexivity).
  assert (H3 : "department" ∈ ["department"]) by left.
  assert (H4 : "Eng" ≠ "") by discriminate.
  repeat (split; [assumption|]).
  exact (transform_filter_after_drop_raises PlainCsv.parse PlainCsv.format
           "extracted_sql.csv" false ["department"] (Some "Eng") "Eng" s
           Sample.staff_csv Sample.staff H1 H2 H3 eq_refl H4).
Defined.

Lemma transform_rerun_same_files_witness :
  let s := Sample.extracted Sample.staff_csv in
  let first := Sample.transform "extracted_sql.csv" true [] None s in
  let second := Sample.transform "extracted_sql.csv" true [] None (snd first) in
  "extracted_sql.csv" ≠ "transformed_sql.csv" ∧
  fst second = fst first ∧ files (snd second) = files (snd first).
Proof.
  intros s first second.
  assert (H : "extracted_sql.csv" ≠ "transformed_sql.csv") by discriminate.
  split; [assumption|].
  exact (transform_rerun_same_files PlainCsv.parse PlainCsv.format
           "extracted_sql.csv" true [] None s H).
Defined.

Lemma transform_surviving_rows_witness :
  let s := Sample.extracted Sample.staff_csv in
  let s' := snd (Sample.transform "extracted_sql.csv" true ["id"] (Some "Eng") s) in
  files s !! "extracted_sql.csv" = Some Sample.staff_csv ∧
  PlainCsv.parse Sample.staff_csv = Some Sample.staff ∧
  Sample.transform "extracted_sql.csv" true ["id"] (Some "Eng") s
    = (Returned tt, s') ∧
  ∃ out,
    files s' !! "transformed_sql.csv" = Some (PlainCsv.format out) ∧
    ∀ r, r ∈ rows out <->
         r ∈ rows (Transformer.drop_columns ["id"] Sample.staff) ∧
         (true = true -> has_null (snd r) = false) ∧
         (∀ dept, Transformer.active_filter (Some "Eng") = Some dept ->
                  lookup_cell (columns out) (snd r) "department" =
                  Some (Some (VStr dept))).
Proof.
  intros s s'.
  assert (H1 : files s !! "extracted_sql.csv" = Some Sample.staff_csv)
    by (vm_compute; reflexivity).
  assert (H2 : PlainCsv.parse Sample.staff_csv = Some Sample.staff)
    by (vm_compute; reflexivity).
  assert (H3 : Sample.transform "extracted_sql.csv" true ["id"] (Some "Eng") s
               = (Returned tt, s')) by (vm_compute; reflexivity).
  repeat (split; [assumption|]).
  exact (transform_surviving_rows PlainCsv.parse PlainCsv.format
           "extracted_sql.csv" true ["id"] (Some "Eng") s s'
           Sample.staff_csv Sample.staff H1 H2 H3).
Defined.

Lemma plain_format_ignores_labels : ignores_labels PlainCsv.format.
Proof.
  intros a b [Hcols Hrows]. unfold PlainCsv.format. rewrite Hcols.
  do 2 f_equal.
  rewrite !(fmap_by_snd (fun r => PlainCsv.write_record (PlainCsv.cell_text <$> r))).
  f_equal. exact Hrows.
Qed.

Lemma gaps_well_formed : well_formed Sample.gaps.
Proof.
  split.
  - apply (bool_decide_unpack (NoDup (columns Sample.gaps))).
    vm_compute. exact I.
  - repeat constructor.
Qed.

Lemma gaps_read_back :
  PlainCsv.parse (PlainCsv.format Sample.gaps_kept) = Some Sample.gaps_back ∧
  same_values Sample.gaps_kept Sample.gaps_back.
Proof. split; [vm_compute; reflexivity | split; reflexivity]. Qed.

Lemma load_after_transform_copies_witness :
  let s := Sample.extracted Sample.gaps_csv in
  let s1 := snd (Sample.transform "extracted_sql.csv" true [] (Some "Eng") s) in
  files s !! "extracted_sql.csv" = Some Sample.gaps_csv ∧
  PlainCsv.parse Sample.gaps_csv = Some Sample.gaps ∧
  Sample.transform "extracted_sql.csv" true [] (Some "Eng") s
    = (Returned tt, s1) ∧
  Transformer.run true [] (Some "Eng") Sample.gaps = Some Sample.gaps_kept ∧
  ignores_labels PlainCsv.format ∧
  PlainCsv.parse (PlainCsv.format Sample.gaps_kept) = Some Sample.gaps_back ∧
  same_values Sample.gaps_kept Sample.gaps_back ∧
  ("loaded_sql.csv" ∉ readonly s) ∧
  ∃ s2, Sample.load "loaded_sql.csv" s1 = (Returned tt, s2) ∧
        files s2 !! "loaded_sql.csv" = files s1 !! "transformed_sql.csv" ∧
        files s2 !! "loaded_sql.csv" = Some (PlainCsv.format Sample.gaps_kept).
Proof.
  intros s s1.
  assert (H1 : files s !! "extracted_sql.csv" = Some Sample.gaps_csv)
    by (vm_compute; reflexivity).
  assert (H2 : PlainCsv.parse Sample.gaps_csv = Some Sample.gaps)
    by (vm_compute; reflexivity).
  assert (H3 : Sample.transform "extracted_sql.csv" true [] (Some "Eng") s
               = (Returned tt, s1)) by (vm_compute; reflexivity).
  assert (H4 : Transformer.run true [] (Some "Eng") Sample.gaps
               = Some Sample.gaps_kept) by (vm_compute; reflexivity).
  assert (H5 : PlainCsv.parse (PlainCsv.format Sample.gaps_kept)
               = Some Sample.gaps_back) by (vm_compute; reflexivity).
  assert (H6 : same_values Sample.gaps_kept Sample.gaps_back)
    by (split; reflexivity).
  assert (H7 : "loaded_sql.csv" ∉ readonly s).
  { apply (bool_decide_unpack ("loaded_sql.csv" ∉ readonly s)).
    vm_compute. exact I. }
  repeat (split; [assumption || exact plain_format_ignores_labels|]).
  exact (load_after_transform_copies PlainCsv.parse PlainCsv.format
           "extracted_sql.csv" true [] (Some "Eng") "loaded_sql.csv"
           s s1 Sample.gaps_csv Sample.gaps Sample.gaps_kept Sample.gaps_back
           H1 H2 H3 H4 plain_format_ignores_labels H5 H6 H7).
Defined.

Lemma validate_after_drop_null_witness :
  let s := Sample.extracted Sample.gaps_csv in
  let s1 := snd (Sample.transform "extracted_sql.csv" true [] (Some "Eng") s) in
  files s !! "extracted_sql.csv" = Some Sample.gaps_csv ∧
  PlainCsv.parse Sample.gaps_csv = Some Sample.gaps ∧
  Sample.transform "extracted_sql.csv" true [] (Some "Eng") s
    = (Returned tt, s1) ∧
  Transformer.run true [] (Some "Eng") Sample.gaps = Some Sample.gaps_kept ∧
  PlainCsv.parse (PlainCsv.format Sample.gaps_kept) = Some Sample.gaps_back ∧
  same_values Sample.gaps_kept Sample.gaps_back ∧
  ∃ s2, Sample.validate "transformed_sql.csv" s1 = (Returned tt, s2) ∧
        "❗ Null values found" ∉ new_lines s1 s2.
Proof.
  intros s s1.
  assert (H1 : files s !! "extracted_sql.csv" = Some Sample.gaps_csv)
    by (vm_compute; reflexivity).
  assert (H2 : PlainCsv.parse Sample.gaps_csv = Some Sample.gaps)
    by (vm_compute; reflexivity).
  assert (H3 : Sample.transform "extracted_sql.csv" true [] (Some "Eng") s
               = (Returned tt, s1)) by (vm_compute; reflexivity).
  assert (H4 : Transformer.run true [] (Some "Eng") Sample.gaps
               = Some Sample.gaps_kept) by (vm_compute; reflexivity).
  assert (H5 : PlainCsv.parse (PlainCsv.format Sample.gaps_kept)
               = Some Sample.gaps_back) by (vm_compute; reflexivity).
  assert (H6 : same_values Sample.gaps_kept Sample.gaps_back)
    by (split; reflexivity).
  repeat (split; [assumption|]).
  exact (validate_after_drop_null PlainCsv.parse PlainCsv.format
           "extracted_sql.csv" [] (Some "Eng")
           s s1 Sample.gaps_csv Sample.gaps Sample.gaps_kept Sample.gaps_back
           H1 H2 H3 H4 H5 H6).
Defined.

Lemma extract_success_witness :
  Sample.odbc_accepts (conn_str Sample.env) = true ∧
  Sample.sql_result ("SELECT * FROM " +:+ "staff") = Some Sample.staff ∧
  ("extracted_sql.csv" ∉ readonly Sample.idle) ∧
  ∃ s', Sample.extract "staff" Sample.idle = (Returned tt, s') ∧
    files s' = <["extracted_sql.csv" := PlainCsv.format Sample.staff]>
                 (files Sample.idle) ∧
    connections s' = connections Sample.idle ∧
    new_lines Sample.idle s' =
      [ "🔍 Extracting data from SQL table: " +:+ "staff";
        "✅ Extracted " +:+ pretty (length (rows Sample.staff)) +:+ " rows";
        "📁 Saved to extracted_sql.csv" ].
Proof.
  assert (H1 : Sample.odbc_accepts (conn_str Sample.env) = true)
    by reflexivity.
  assert (H2 : Sample.sql_result ("SELECT * FROM " +:+ "staff")
               = Some Sample.staff) by (vm_compute; reflexivity).
  assert (H3 : "extracted_sql.csv" ∉ readonly Sample.idle).
  { apply (bool_decide_unpack ("extracted_sql.csv" ∉ readonly Sample.idle)).
    vm_compute. exact I. }
  repeat (split; [assumption|]).
  exact (extract_success PlainCsv.format Sample.odbc_accepts Sample.sql_result
           Sample.env "staff" Sample.idle Sample.staff H1 H2 H3).
Defined.

Lemma pipeline_end_to_end_witness :
  Sample.odbc_accepts (conn_str Sample.env) = true ∧
  Sample.sql_result ("SELECT * FROM " +:+ "staff") = Some Sample.staff ∧
  PlainCsv.parse (PlainCsv.format Sample.staff) = Some Sample.staff ∧
  ("extracted_sql.csv" ∉ readonly Sample.idle) ∧
  ("transformed_sql.csv" ∉ readonly Sample.idle) ∧
  ("loaded_sql.csv" ∉ readonly Sample.idle) ∧
  ∃ s1 s2 s3,
    Sample.extract "staff" Sample.idle = (Returned tt, s1) ∧
    Sample.transform "extracted_sql.csv" false [] None s1 = (Returned tt, s2) ∧
    Sample.load "loaded_sql.csv" s2 = (Returned tt, s3) ∧
    files s3 !! "loaded_sql.csv" = Some (PlainCsv.format Sample.staff) ∧
    connections s3 = connections Sample.idle.
Proof.
  assert (H1 : Sample.odbc_accepts (conn_str Sample.env) = true)
    by reflexivity.
  assert (H2 : Sample.sql_result ("SELECT * FROM " +:+ "staff")
               = Some Sample.staff) by (vm_compute; reflexivity).
  assert (H3 : PlainCsv.parse (PlainCsv.format Sample.staff)
               = Some Sample.staff) by (vm_compute; reflexivity).
  assert (H4 : "extracted_sql.csv" ∉ readonly Sample.idle).
  { apply (bool_decide_unpack ("extracted_sql.csv" ∉ readonly Sample.idle)).
    vm_compute. exact I. }
  assert (H5 : "transformed_sql.csv" ∉ readonly Sample.idle).
  { apply (bool_decide_unpack ("transformed_sql.csv" ∉ readonly Sample.idle)).
    vm_compute. exact I. }
  assert (H6 : "loaded_sql.csv" ∉ readonly Sample.idle).
  { apply (bool_decide_unpack ("loaded_sql.csv" ∉ readonly Sample.idle)).
    vm_compute. exact I. }
  repeat (split; [assumption|]).
  exact (pipeline_end_to_end PlainCsv.parse PlainCsv.format
           Sample.odbc_accepts Sample.sql_result Sample.env
           "staff" "loaded_sql.csv" Sample.idle Sample.staff
           H1 H2 H3 H4 H5 H6).
Defined.

Lemma transform_in_place_stable_witness :
  let s := Sample.extracted Sample.gaps_csv in
  let s1 := snd (Sample.transform "extracted_sql.csv" true [] (Some "Eng") s) in
  files s !! "extracted_sql.csv" = Some Sample.gaps_csv ∧
  PlainCsv.parse Sample.gaps_csv = Some Sample.gaps ∧
  well_formed Sample.gaps ∧
  Sample.transform "extracted_sql.csv" true [] (Some "Eng") s
    = (Returned tt, s1) ∧
  Transformer.run true [] (Some "Eng") Sample.gaps = Some Sample.gaps_kept ∧
  ignores_labels PlainCsv.format ∧
  PlainCsv.parse (PlainCsv.format Sample.gaps_kept) = Some Sample.gaps_back ∧
  same_values Sample.gaps_kept Sample.gaps_back ∧
  ∃ s2, Sample.transform "transformed_sql.csv" true [] (Some "Eng") s1
          = (Returned tt, s2) ∧
        files s2 = files s1.
Proof.
  intros s s1.
  assert (H1 : files s !! "extracted_sql.csv" = Some Sample.gaps_csv)
    by (vm_compute; reflexivity).
  assert (H2 : PlainCsv.parse Sample.gaps_csv = Some Sample.gaps)
    by (vm_compute; reflexivity).
  assert (H3 : Sample.transform "extracted_sql.csv" true [] (Some "Eng") s
               = (Returned tt, s1)) by (vm_compute; reflexivity).
  assert (H4 : Transformer.run true [] (Some "Eng") Sample.gaps
               = Some Sample.gaps_kept) by (vm_compute; reflexivity).
  assert (H5 : PlainCsv.parse (PlainCsv.format Sample.gaps_kept)
               = Some Sample.gaps_back) by (vm_compute; reflexivity).
  assert (H6 : same_values Sample.gaps_kept Sample.gaps_back)
    by (split; reflexivity).
  repeat (split; [assumption || exact gaps_well_formed
                  || exact plain_format_ignores_labels|]).
  exact (transform_in_place_stable PlainCsv.parse PlainCsv.format
           "extracted_sql.csv" true [] (Some "Eng")
           s s1 Sample.gaps_csv Sample.gaps Sample.gaps_kept Sample.gaps_back
           H1 H2 gaps_well_formed H3 H4 plain_format_ignores_labels H5 H6).
Defined.
